(** * Library management: borrowing, inventory and statistics

    A shallow embedding of the server's storage layer
    ([server/storage.ts]), of the HTTP handlers that call it
    ([server/routes.ts]), of the table declarations ([shared/schema.ts])
    and of the dashboard's [getStatus] ([UserDashboard.tsx]).

    Conventions.
    - Timestamps are milliseconds since the epoch, as [Date.getTime()]
      gives them; [new Date()] and the columns' [defaultNow()] read a
      clock that every operation takes as its argument [now].
    - [decimal(10, 2)] values are counted in hundredths (cents).
    - A table with a [serial] primary key is a finite map from the key
      to the rest of the row, together with the key's sequence.
    - The database is shared state threaded through every call; a
      rejected promise keeps the writes made before the rejection, since
      the storage layer opens no transaction.
    - The query builders ([select], [insert], [update], [delete]) are
      read with their SQL meaning on these tables, constraints included:
      primary and foreign keys, [unique()], and the range of [integer]
      and [decimal] columns. A statement refused for a value that is
      not of its column's type or range writes nothing and draws no
      key; one refused for a key constraint has drawn its key.
    - JavaScript around a query is evaluated as JavaScript: arithmetic
      on the object [db.$count(...)] returns does not see any row, and
      destructuring an awaited count, a number, throws. *)

From Stdlib Require Import ZArith String.
From stdpp Require Import base numbers option strings list gmap fin_maps.
From stdpp Require Import sorting pretty.

Local Open Scope string_scope.
Local Open Scope Z_scope.

(** ** Tables ([shared/schema.ts]) *)

(** Row of [users]; only [role] is read by the modelled handlers. *)
Record User := mkUser {
  email : option string;
  role : string
}.

(** Row of [books], without its key. *)
Record Book := mkBook {
  title : string;
  author : string;
  isbn : option string;
  category : string;
  description : option string;
  coverImageUrl : option string;
  price : Z;
  totalCopies : Z;
  availableCopies : Z;
  rating : option Z;
  createdAt : option Z;
  updatedAt : option Z
}.

(** Row of [borrowed_books], without its key. [status] is a [varchar]
    holding 'borrowed', 'returned' or 'overdue'. *)
Record BorrowedBook := mkBorrowedBook {
  userId : string;
  bookId : Z;
  borrowedAt : option Z;
  dueDate : Z;
  returnedAt : option Z;
  status : string
}.

(** Row of [purchases], without its key. *)
Record Purchase := mkPurchase {
  purchase_userId : string;
  purchase_bookId : Z;
  purchase_price : Z;
  purchasedAt : option Z
}.

(** The value [insertBookSchema] parses a request body into: [id],
    [createdAt] and [updatedAt] are omitted, columns with a default or
    without [notNull] are optional. *)
Record InsertBook := mkInsertBook {
  ins_title : string;
  ins_author : string;
  ins_isbn : option string;
  ins_category : string;
  ins_description : option string;
  ins_coverImageUrl : option string;
  ins_price : Z;
  ins_totalCopies : option Z;
  ins_availableCopies : option Z;
  ins_rating : option Z
}.

(** The database: the four tables and the three [serial] sequences. *)
Record Db := mkDb {
  users : gmap string User;
  books : gmap Z Book;
  books_id_seq : Z;
  borrowedBooks : gmap Z BorrowedBook;
  borrowed_books_id_seq : Z;
  purchases : gmap Z Purchase;
  purchases_id_seq : Z
}.

Definition with_books (f : gmap Z Book -> gmap Z Book) (db : Db) : Db :=
  mkDb (users db) (f (books db)) (books_id_seq db)
       (borrowedBooks db) (borrowed_books_id_seq db)
       (purchases db) (purchases_id_seq db).

Definition with_books_id_seq (n : Z) (db : Db) : Db :=
  mkDb (users db) (books db) n
       (borrowedBooks db) (borrowed_books_id_seq db)
       (purchases db) (purchases_id_seq db).

Definition with_borrowedBooks
    (f : gmap Z BorrowedBook -> gmap Z BorrowedBook) (db : Db) : Db :=
  mkDb (users db) (books db) (books_id_seq db)
       (f (borrowedBooks db)) (borrowed_books_id_seq db)
       (purchases db) (purchases_id_seq db).

Definition with_borrowed_books_id_seq (n : Z) (db : Db) : Db :=
  mkDb (users db) (books db) (books_id_seq db)
       (borrowedBooks db) n
       (purchases db) (purchases_id_seq db).

Definition with_purchases
    (f : gmap Z Purchase -> gmap Z Purchase) (db : Db) : Db :=
  mkDb (users db) (books db) (books_id_seq db)
       (borrowedBooks db) (borrowed_books_id_seq db)
       (f (purchases db)) (purchases_id_seq db).

Definition with_purchases_id_seq (n : Z) (db : Db) : Db :=
  mkDb (users db) (books db) (books_id_seq db)
       (borrowedBooks db) (borrowed_books_id_seq db)
       (purchases db) n.

(** A book row with another [availableCopies]. *)
Definition set_availableCopies (v : Z) (b : Book) : Book :=
  mkBook (title b) (author b) (isbn b) (category b) (description b)
         (coverImageUrl b) (price b) (totalCopies b) v (rating b)
         (createdAt b) (updatedAt b).

(** Column updates used by the [set] clauses on [borrowed_books]. *)
Definition set_returned (now : Z) (l : BorrowedBook) : BorrowedBook :=
  mkBorrowedBook (userId l) (bookId l) (borrowedAt l) (dueDate l)
                 (Some now) "returned".

Definition set_dueDate (d : Z) (l : BorrowedBook) : BorrowedBook :=
  mkBorrowedBook (userId l) (bookId l) (borrowedAt l) d
                 (returnedAt l) (status l).

(** ** Column types *)

(** [integer] is a signed 32-bit column: a value outside its range is
    refused by the database. *)
Definition int4_min : Z := -2147483648.
Definition int4_max : Z := 2147483647.
Definition int4_ok (v : Z) : bool := (int4_min <=? v) && (v <=? int4_max).

(** [decimal(10, 2)]: at most ten digits, two of them after the point. *)
Definition decimal_10_2_ok (cents : Z) : bool := Z.abs cents <? 10000000000.

(** [decimal(3, 2)], the column type of [rating]. *)
Definition decimal_3_2_ok (cents : Z) : bool := Z.abs cents <? 1000.

(** ** Promises over the shared database *)

(** What a rejected promise carries: an error of the database, or the
    [TypeError] JavaScript throws on destructuring a value that is not
    iterable. *)
Inductive DbError :=
| IntegerOutOfRange
| NumericFieldOverflow
| ForeignKeyViolation
| UniqueViolation
| InvalidTextRepresentation
| TypeError.

Inductive Settled (A : Type) :=
| Fulfilled (a : A)
| Rejected (e : DbError).
Arguments Fulfilled {A} a.
Arguments Rejected {A} e.

Definition Promise (A : Type) : Type := Db -> Db * Settled A.

Definition resolve {A} (a : A) : Promise A := fun db => (db, Fulfilled a).
Definition reject {A} (e : DbError) : Promise A := fun db => (db, Rejected e).

(** [await]: the continuation runs on the database the awaited call left;
    a rejection skips it and keeps that database. *)
Definition await {A B} (p : Promise A) (k : A -> Promise B) : Promise B :=
  fun db =>
    match p db with
    | (db', Fulfilled a) => k a db'
    | (db', Rejected e) => (db', Rejected e)
    end.

Notation "'let*' x ':=' p 'in' k" := (await p (fun x => k))
  (at level 10, x pattern, p at level 100, k at level 200).

(** ** Storage layer ([server/storage.ts]) *)

(** [db.select().from(books).where(eq(books.id, id))], first row. *)
Definition getBookById (id : Z) : Promise (option Book) :=
  fun db => (db, Fulfilled (books db !! id)).

(** What [db.$count(books.availableCopies) - 1] and
    [db.$count(books.availableCopies) + 1] evaluate to. [db.$count]
    returns a query object; the arithmetic is JavaScript's, done once,
    before the UPDATE is built and without reference to any row:
    subtracting from an object gives [NaN], adding to an object gives a
    string. *)
Inductive JsValue :=
| JsNaN
| JsString.

Definition count_minus_one : JsValue := JsNaN.
Definition count_plus_one : JsValue := JsString.

(** [db.update(books).set({ availableCopies: v }).where(eq(books.id, id))]
    with such a value: neither [NaN] nor a string is an [integer], so
    the database refuses the statement, whatever the id, and no row is
    written. *)
Definition update_availableCopies (v : JsValue) (id : Z) : Promise unit :=
  match v with
  | JsNaN => reject InvalidTextRepresentation
  | JsString => reject InvalidTextRepresentation
  end.

(** [db.insert(borrowedBooks).values({ userId, bookId, dueDate })
       .returning()]:
    the key is drawn from the sequence, [borrowedAt] defaults to now,
    [status] to 'borrowed'; [user_id] and [book_id] reference [users]
    and [books]. The sequence keeps the value it drew when the insert
    is refused. *)
Definition insert_borrowedBooks (now : Z) (uid : string) (bid : Z) (due : Z)
    : Promise (Z * BorrowedBook) :=
  fun db =>
    let id := borrowed_books_id_seq db in
    let db1 := with_borrowed_books_id_seq (id + 1) db in
    let row := mkBorrowedBook uid bid (Some now) due None "borrowed" in
    match borrowedBooks db !! id with
    | Some _ => (db1, Rejected UniqueViolation)
    | None =>
        match users db !! uid, books db !! bid with
        | Some _, Some _ =>
            (with_borrowedBooks (insert id row) db1, Fulfilled (id, row))
        | _, _ => (db1, Rejected ForeignKeyViolation)
        end
    end.

Definition borrowBook (now : Z) (uid : string) (bid : Z) (due : Z)
    : Promise (Z * BorrowedBook) :=
  (* First, decrease available copies *)
  let* _ := update_availableCopies count_minus_one bid in
  let* borrowed := insert_borrowedBooks now uid bid due in
  resolve borrowed.

(** [db.update(borrowedBooks).set({ status: "returned",
       returnedAt: new Date() }).where(eq(borrowedBooks.id, id))]. *)
Definition update_returned (now : Z) (id : Z) : Promise unit :=
  fun db => (with_borrowedBooks (alter (set_returned now) id) db, Fulfilled tt).

Definition returnBook (now : Z) (borrowId : Z) : Promise unit :=
  fun db =>
    (* Get the borrowed book to update the book's available copies *)
    match borrowedBooks db !! borrowId with
    | Some borrowed =>
        (let* _ := update_returned now borrowId in
         (* Increase available copies *)
         let* _ := update_availableCopies count_plus_one (bookId borrowed) in
         resolve tt) db
    | None => (db, Fulfilled tt)
    end.

Definition renewBook (borrowId : Z) (newDueDate : Z) : Promise unit :=
  fun db =>
    (with_borrowedBooks (alter (set_dueDate newDueDate) borrowId) db,
     Fulfilled tt).

(** [db.insert(purchases).values({ userId, bookId, price }).returning()]:
    [purchasedAt] defaults to now; [user_id] and [book_id] reference
    [users] and [books]; [price] must fit [decimal(10, 2)], or the
    statement is refused before a key is drawn. *)
Definition insert_purchases (now : Z) (uid : string) (bid : Z) (p : Z)
    : Promise (Z * Purchase) :=
  fun db =>
    let id := purchases_id_seq db in
    let db1 := with_purchases_id_seq (id + 1) db in
    let row := mkPurchase uid bid p (Some now) in
    if negb (decimal_10_2_ok p) then (db, Rejected NumericFieldOverflow)
    else
      match purchases db !! id with
      | Some _ => (db1, Rejected UniqueViolation)
      | None =>
          match users db !! uid, books db !! bid with
          | Some _, Some _ =>
              (with_purchases (insert id row) db1, Fulfilled (id, row))
          | _, _ => (db1, Rejected ForeignKeyViolation)
          end
      end.

Definition purchaseBook (now : Z) (uid : string) (bid : Z) (p : Z)
    : Promise (Z * Purchase) :=
  let* purchase := insert_purchases now uid bid p in
  resolve purchase.

(** The row [db.insert(books).values(book)] builds: [total_copies] and
    [available_copies] each default to 1, [rating] to "0", both
    timestamps to now. *)
Definition book_of_insert (now : Z) (book : InsertBook) : Book :=
  mkBook (ins_title book) (ins_author book) (ins_isbn book)
         (ins_category book) (ins_description book)
         (ins_coverImageUrl book) (ins_price book)
         (default 1 (ins_totalCopies book))
         (default 1 (ins_availableCopies book))
         (Some (default 0 (ins_rating book)))
         (Some now) (Some now).

(** [isbn] is [unique()]: a non-null value may occur in one row only. *)
Definition isbn_taken (i : option string) (bs : gmap Z Book) : bool :=
  match i with
  | None => false
  | Some s =>
      bool_decide (Exists (fun kb => isbn (snd kb) = Some s) (map_to_list bs))
  end.

Definition book_fits (b : Book) : option DbError :=
  if negb (int4_ok (totalCopies b) && int4_ok (availableCopies b))
  then Some IntegerOutOfRange
  else if negb (decimal_10_2_ok (price b)
                && from_option decimal_3_2_ok true (rating b))
  then Some NumericFieldOverflow
  else None.

Definition insert_books (now : Z) (book : InsertBook) : Promise (Z * Book) :=
  fun db =>
    let id := books_id_seq db in
    let db1 := with_books_id_seq (id + 1) db in
    let row := book_of_insert now book in
    match book_fits row with
    | Some e => (db, Rejected e)
    | None =>
        match books db !! id with
        | Some _ => (db1, Rejected UniqueViolation)
        | None =>
            if isbn_taken (isbn row) (books db)
            then (db1, Rejected UniqueViolation)
            else (with_books (insert id row) db1, Fulfilled (id, row))
        end
    end.

Definition createBook (now : Z) (book : InsertBook) : Promise (Z * Book) :=
  let* newBook := insert_books now book in
  resolve newBook.

(** *** Admin statistics *)

(** [await db.$count(table, filter)]: the number of rows the filter
    keeps, a number. *)
Definition count_rows {A} (keep : A -> bool) (t : gmap Z A) : Z :=
  Z.of_nat (length (filter (fun kv => keep (snd kv) = true) (map_to_list t))).

(** The row [const [result] = ...] would bind, read by [result.count]. *)
Record CountRow := mkCountRow {
  count : Z
}.

(** [await db.$count(table, filter)] resolves to that number. *)
Definition db_count (n : Db -> Z) : Promise Z :=
  fun db => (db, Fulfilled (n db)).

(** [const [result] = n] for a number [n]: a number is not iterable, so
    the destructuring throws a [TypeError] and the promise of the
    enclosing [async] method rejects. *)
Definition destructure_first (n : Z) : Promise CountRow := reject TypeError.

Definition getTotalBooks : Promise Z :=
  let* n := db_count (fun db => Z.of_nat (size (books db))) in
  let* result := destructure_first n in
  resolve (count result).

Definition getTotalUsers : Promise Z :=
  let* n := db_count (fun db => Z.of_nat (size (users db))) in
  let* result := destructure_first n in
  resolve (count result).

(** [today] is computed and left unused: the filter is a comment. *)
Definition getTotalBorrowedToday (now : Z) : Promise Z :=
  let* n := db_count (fun db => Z.of_nat (size (borrowedBooks db))) in
  let* result := destructure_first n in
  resolve (count result).

(** [and(eq(borrowedBooks.status, "borrowed"), /* dueDate < now */)]. *)
Definition getTotalOverdue (now : Z) : Promise Z :=
  let* n :=
    db_count (fun db =>
                count_rows (fun l => bool_decide (status l = "borrowed"))
                           (borrowedBooks db)) in
  let* result := destructure_first n in
  resolve (count result).

(** The literal returned is a plain number: no row is read. *)
Definition getTotalRevenueToday (now : Z) : Promise Z :=
  fun db => (db, Fulfilled 1847) (* Placeholder for now *).

(** ** HTTP handlers ([server/routes.ts])

    Each handler is modelled after [isAuthenticated] has let the request
    through: [uid] is [req.user.claims.sub]. Request bodies arrive
    already typed ([bookId] a number, dates valid). *)

Record AdminStats := mkAdminStats {
  totalBooks : Z;
  totalUsers : Z;
  borrowedToday : Z;
  overdue : Z;
  revenueToday : Z
}.

Inductive Body :=
| Message (message : string)
| BookJson (book : Z * Book)
| BorrowedJson (borrowed : Z * BorrowedBook)
| PurchaseJson (purchase : Z * Purchase)
| StatsJson (stats : AdminStats).

Record Response := mkResponse {
  statusCode : Z;
  body : Body
}.

(** [res.json(x)] answers 200; [res.status(c).json(x)] answers [c]. *)
Definition res_json (b : Body) : Response := mkResponse 200 b.
Definition res_status (c : Z) (m : string) : Response := mkResponse c (Message m).

Definition Handler : Type := Db -> Db * Response.

(** [try { ... } catch (error) { res.status(500).json({ message }) }]. *)
Definition try_catch (p : Promise Response) (message : string) : Handler :=
  fun db =>
    match p db with
    | (db', Fulfilled r) => (db', r)
    | (db', Rejected _) => (db', res_status 500 message)
    end.

Definition getUser (id : string) : Promise (option User) :=
  fun db => (db, Fulfilled (users db !! id)).

(** [user?.role !== "admin"]. *)
Definition not_admin (user : option User) : bool :=
  match user with
  | Some u => negb (bool_decide (role u = "admin"))
  | None => true
  end.

(** [POST /api/books], on a body [insertBookSchema.parse] accepts. *)
Definition post_api_books (now : Z) (uid : string) (bookData : InsertBook)
    : Handler :=
  try_catch
    (let* user := getUser uid in
     if not_admin user
     then resolve (res_status 403 "Admin access required")
     else
       let* book := createBook now bookData in
       resolve (res_json (BookJson book)))
    "Failed to create book".

(** [POST /api/borrow]. *)
Definition post_api_borrow (now : Z) (uid : string) (bid : Z) (due : Z)
    : Handler :=
  try_catch
    (let* book := getBookById bid in
     match book with
     | Some b =>
         if availableCopies b =? 0
         then resolve (res_status 400 "Book not available for borrowing")
         else
           let* borrowed := borrowBook now uid bid due in
           resolve (res_json (BorrowedJson borrowed))
     | None => resolve (res_status 400 "Book not available for borrowing")
     end)
    "Failed to borrow book".

(** [POST /api/return/:id]. *)
Definition post_api_return (now : Z) (borrowId : Z) : Handler :=
  try_catch
    (let* _ := returnBook now borrowId in
     resolve (res_json (Message "Book returned successfully")))
    "Failed to return book".

(** [POST /api/renew/:id]. *)
Definition post_api_renew (borrowId : Z) (newDueDate : Z) : Handler :=
  try_catch
    (let* _ := renewBook borrowId newDueDate in
     resolve (res_json (Message "Book renewed successfully")))
    "Failed to renew book".

(** [POST /api/purchase]: [bookId] and [price] both come from the body. *)
Definition post_api_purchase (now : Z) (uid : string) (bid : Z) (p : Z)
    : Handler :=
  try_catch
    (let* purchase := purchaseBook now uid bid p in
     resolve (res_json (PurchaseJson purchase)))
    "Failed to purchase book".

(** [GET /api/admin/stats]. The five promises of [Promise.all] only
    read; the first rejection is the one [catch] sees. *)
Definition get_api_admin_stats (now : Z) (uid : string) : Handler :=
  try_catch
    (let* user := getUser uid in
     if not_admin user
     then resolve (res_status 403 "Admin access required")
     else
       let* tb := getTotalBooks in
       let* tu := getTotalUsers in
       let* bt := getTotalBorrowedToday now in
       let* od := getTotalOverdue now in
       let* rt := getTotalRevenueToday now in
       resolve (res_json (StatsJson (mkAdminStats tb tu bt od rt))))
    "Failed to fetch admin stats".

(** ** Dashboard status ([UserDashboard.tsx]) *)

Record StatusBadge := mkStatusBadge {
  text : string;
  color : string
}.

Definition ms_per_day : Z := 1000 * 3600 * 24.

(** [Math.ceil(a / b)] for an integer [a] and a positive integer [b].
    The source divides in floating point; for a difference of two valid
    dates the rounded quotient lies on the same side of every small
    integer as the exact one, so the comparisons of [getStatus] with 0
    and 3 see the exact ceiling. *)
Definition ceil_div (a b : Z) : Z := - ((- a) / b).

Definition diffDays (due now : Z) : Z := ceil_div (due - now) ms_per_day.

(** [getStatus(dueDate)], with [due] for [new Date(dueDate).getTime()]
    and [now] for [new Date().getTime()]. *)
Definition getStatus (due now : Z) : StatusBadge :=
  if diffDays due now <? 0
  then mkStatusBadge "Overdue" "bg-library-error text-white"
  else if diffDays due now <=? 3
  then mkStatusBadge "Due Soon" "bg-library-warning text-white"
  else mkStatusBadge "On Time" "bg-library-success text-white".

(** ** Sequences of borrow and return requests *)

Inductive Request :=
| Borrow (now : Z) (uid : string) (bid : Z) (due : Z)
| Return (now : Z) (borrowId : Z).

Definition handle (r : Request) : Handler :=
  match r with
  | Borrow now uid bid due => post_api_borrow now uid bid due
  | Return now borrowId => post_api_return now borrowId
  end.

(** The database after the requests were served one after the other. *)
Fixpoint serve (rs : list Request) (db : Db) : Db :=
  match rs with
  | [] => db
  | r :: rs' => serve rs' (fst (handle r db))
  end.

(** The same operations as direct calls of the storage layer. *)
Definition call (r : Request) (db : Db) : Db :=
  match r with
  | Borrow now uid bid due => fst (borrowBook now uid bid due db)
  | Return now borrowId => fst (returnBook now borrowId db)
  end.

Fixpoint call_all (rs : list Request) (db : Db) : Db :=
  match rs with
  | [] => db
  | r :: rs' => call_all rs' (call r db)
  end.

(** ** Sample databases *)

Definition sample_book (total available : Z) : Book :=
  mkBook "Dune" "Frank Herbert" (Some "9780441013593") "Fiction" None None
         999 total available (Some 0) (Some 0) (Some 0).

Definition sample_users : gmap string User :=
  {[ "alice" := mkUser None "user"; "root" := mkUser None "admin" ]}.

(** One book with a single copy on the shelf, no loan, no purchase. *)
Definition db_one_copy : Db :=
  mkDb sample_users {[ 1 := sample_book 1 1 ]} 2 ∅ 1 ∅ 1.

(** Book 1 with one of its two copies left, and no loan on record. *)
Definition db_two_no_loan : Db :=
  mkDb sample_users {[ 1 := sample_book 2 1 ]} 2 ∅ 1 ∅ 1.

(** One book with two copies on the shelf. *)
Definition db_two_copies : Db :=
  mkDb sample_users {[ 1 := sample_book 2 2 ]} 2 ∅ 1 ∅ 1.

(** The only copy is out: [availableCopies] is 0. *)
Definition db_none_left : Db :=
  mkDb sample_users {[ 1 := sample_book 1 0 ]} 2 ∅ 1 ∅ 1.

(** alice holds loan 1 of the only copy, borrowed at 1000 and due at
    5000. *)
Definition db_on_loan : Db :=
  mkDb sample_users {[ 1 := sample_book 1 0 ]} 2
       {[ 1 := mkBorrowedBook "alice" 1 (Some 1000) 5000 None "borrowed" ]} 2
       ∅ 1.

(** The database a return request for loan 1, at 2000, leaves. *)
Definition db_returned : Db :=
  fst (post_api_return 2000 1 db_on_loan).

(** alice holds loan 1 of one of the two copies. *)
Definition db_two_on_loan : Db :=
  mkDb sample_users {[ 1 := sample_book 2 1 ]} 2
       {[ 1 := mkBorrowedBook "alice" 1 (Some 1000) 5000 None "borrowed" ]} 2
       ∅ 1.

(** ** The copy-count bounds *)

Definition copies_nonneg (db : Db) : Prop :=
  forall id b, books db !! id = Some b -> 0 <= availableCopies b.

Definition copies_bounded (db : Db) : Prop :=
  forall id b, books db !! id = Some b -> availableCopies b <= totalCopies b.

(** ** Sample book data *)

(** Five copies, [availableCopies] left out. *)
Definition emma_five_copies : InsertBook :=
  mkInsertBook "Emma" "Jane Austen" None "Fiction" None None
               1250 (Some 5) None None.

(** [totalCopies = 0]. *)
Definition emma_no_copy : InsertBook :=
  mkInsertBook "Emma" "Jane Austen" None "Fiction" None None
               1250 (Some 0) (Some 0) None.

(** [price = -12.50]. *)
Definition emma_negative_price : InsertBook :=
  mkInsertBook "Emma" "Jane Austen" None "Fiction" None None
               (-1250) (Some 1) (Some 1) None.

(** The ISBN of the book already in [db_one_copy]. *)
Definition emma_same_isbn : InsertBook :=
  mkInsertBook "Emma" "Jane Austen" (Some "9780441013593") "Fiction" None None
               1250 (Some 1) (Some 1) None.

(** ** The statistics scenario

    Two books; alice borrowed the first forty days ago for fourteen
    days and has not returned it; today she borrowed the second and
    bought the first for 9.99. *)

Definition last_month : Z := 1700000000000.
Definition today : Z := last_month + 40 * ms_per_day.

Definition db_empty : Db := mkDb sample_users ∅ 1 ∅ 1 ∅ 1.

Definition dune : InsertBook :=
  mkInsertBook "Dune" "Frank Herbert" None "Fiction" None None
               999 (Some 3) (Some 3) None.

Definition emma : InsertBook :=
  mkInsertBook "Emma" "Jane Austen" None "Fiction" None None
               1250 (Some 3) (Some 3) None.

Definition db_stats : Db :=
  mkDb sample_users
       {[ 1 := set_availableCopies 2 (book_of_insert last_month dune);
          2 := set_availableCopies 2 (book_of_insert last_month emma) ]} 3
       {[ 1 := mkBorrowedBook "alice" 1 (Some last_month)
                              (last_month + 14 * ms_per_day) None "borrowed";
          2 := mkBorrowedBook "alice" 2 (Some today)
                              (today + 14 * ms_per_day) None "borrowed" ]} 3
       {[ 1 := mkPurchase "alice" 1 999 (Some today) ]} 2.

(** ** The rest of the storage layer ([server/storage.ts]) *)

(** *** Users *)

(** [typeof users.$inferInsert], restricted to the columns of [User]:
    [id] is required; [email] may be left out or be null; [role] may be
    left out. *)
Record UpsertUser := mkUpsertUser {
  up_id : string;
  up_email : option (option string);
  up_role : option string
}.

(** [email] is [unique()]: a non-null value may occur in one row only. *)
Definition email_taken (e : option string) (us : gmap string User) : bool :=
  match e with
  | None => false
  | Some s =>
      bool_decide (Exists (fun ku => email (snd ku) = Some s) (map_to_list us))
  end.

(** [db.insert(users).values(userData).onConflictDoUpdate({ target:
    users.id, set: { ...userData, updatedAt: new Date() } })]: a new id is
    inserted with the column defaults; on an existing id only the
    columns present in [userData] are overwritten. *)
Definition upsertUser (userData : UpsertUser) : Promise User :=
  fun db =>
    let old := users db !! up_id userData in
    let row :=
      match old with
      | None =>
          mkUser (default None (up_email userData))
                 (default "user" (up_role userData))
      | Some u =>
          mkUser (default (email u) (up_email userData))
                 (default (role u) (up_role userData))
      end in
    if email_taken (default None (up_email userData))
                   (delete (up_id userData) (users db))
    then (db, Rejected UniqueViolation)
    else
      (mkDb (<[up_id userData := row]> (users db)) (books db)
            (books_id_seq db) (borrowedBooks db) (borrowed_books_id_seq db)
            (purchases db) (purchases_id_seq db),
       Fulfilled row).

(** *** Books *)

(** [ORDER BY ... DESC] on a nullable timestamp: nulls come first, then
    later before earlier. Rows with equal keys come in an order SQL
    leaves open. *)
Definition desc_nulls_first (x y : option Z) : Prop :=
  match x, y with
  | None, _ => True
  | Some _, None => False
  | Some a, Some b => b <= a
  end.

Definition by_createdAt_desc (x y : Z * Book) : Prop :=
  desc_nulls_first (createdAt (snd x)) (createdAt (snd y)).

#[global] Instance desc_nulls_first_dec x y : Decision (desc_nulls_first x y).
Proof. destruct x, y; simpl; apply _. Defined.

#[global] Instance by_createdAt_desc_dec x y : Decision (by_createdAt_desc x y).
Proof. unfold by_createdAt_desc. apply _. Defined.

Definition getAllBooks : Promise (list (Z * Book)) :=
  fun db =>
    (db, Fulfilled (merge_sort by_createdAt_desc (map_to_list (books db)))).

(** [filterBooks(category?)]: [!category] holds for a missing and for an
    empty category; the filtered query has no [orderBy]. *)
Definition filterBooks (cat : option string) : Promise (list (Z * Book)) :=
  match cat with
  | None => getAllBooks
  | Some c =>
      if bool_decide (c = "") then getAllBooks
      else fun db =>
        (db, Fulfilled (filter (fun kb => category (snd kb) = c)
                               (map_to_list (books db))))
  end.

(** [Partial<InsertBook>]: every column may be left out; [rating], a
    nullable column, may also be set to null. *)
Record BookPatch := mkBookPatch {
  patch_title : option string;
  patch_author : option string;
  patch_isbn : option string;
  patch_category : option string;
  patch_description : option string;
  patch_coverImageUrl : option string;
  patch_price : option Z;
  patch_totalCopies : option Z;
  patch_availableCopies : option Z;
  patch_rating : option (option Z)
}.

(** [.set({ ...book, updatedAt: new Date() })]: columns left out keep
    their value. *)
Definition apply_patch (now : Z) (p : BookPatch) (b : Book) : Book :=
  mkBook (default (title b) (patch_title p))
         (default (author b) (patch_author p))
         (from_option Some (isbn b) (patch_isbn p))
         (default (category b) (patch_category p))
         (from_option Some (description b) (patch_description p))
         (from_option Some (coverImageUrl b) (patch_coverImageUrl p))
         (default (price b) (patch_price p))
         (default (totalCopies b) (patch_totalCopies p))
         (default (availableCopies b) (patch_availableCopies p))
         (default (rating b) (patch_rating p))
         (createdAt b)
         (Some now).

(** The values a patch writes must fit their columns. *)
Definition patch_fits (p : BookPatch) : option DbError :=
  if negb (from_option int4_ok true (patch_totalCopies p)
           && from_option int4_ok true (patch_availableCopies p))
  then Some IntegerOutOfRange
  else if negb (from_option decimal_10_2_ok true (patch_price p)
                && from_option (from_option decimal_3_2_ok true) true
                               (patch_rating p))
  then Some NumericFieldOverflow
  else None.

(** [db.update(books).set(...).where(eq(books.id, id)).returning()],
    first row: [undefined] when no row has that id. A value that does
    not fit its column makes the database refuse the statement, whether
    or not a row has that id. *)
Definition updateBook (now : Z) (id : Z) (book : BookPatch)
    : Promise (option (Z * Book)) :=
  fun db =>
    match patch_fits book with
    | Some e => (db, Rejected e)
    | None =>
        match books db !! id with
        | None => (db, Fulfilled None)
        | Some b =>
            if isbn_taken (patch_isbn book) (delete id (books db))
            then (db, Rejected UniqueViolation)
            else (with_books (insert id (apply_patch now book b)) db,
                  Fulfilled (Some (id, apply_patch now book b)))
        end
    end.

(** [borrowed_books.book_id] and [purchases.book_id] reference
    [books.id] with no [onDelete] action: a referenced book cannot be
    deleted. *)
Definition book_referenced (id : Z) (db : Db) : bool :=
  bool_decide (Exists (fun kl => bookId (snd kl) = id)
                      (map_to_list (borrowedBooks db)))
  || bool_decide (Exists (fun kp => purchase_bookId (snd kp) = id)
                         (map_to_list (purchases db))).

(** [db.delete(books).where(eq(books.id, id))]. *)
Definition deleteBook (id : Z) : Promise unit :=
  fun db =>
    match books db !! id with
    | None => (db, Fulfilled tt)
    | Some _ =>
        if book_referenced id db
        then (db, Rejected ForeignKeyViolation)
        else (with_books (delete id) db, Fulfilled tt)
    end.

(** *** Loans and purchases with their books *)

(** A loan with its key and the book the inner join pairs it with (the
    book's key is the loan's [bookId]). *)
Definition BorrowedBookWithDetails : Type := Z * BorrowedBook * Book.
Definition PurchaseWithDetails : Type := Z * Purchase * Book.

(** [.innerJoin(books, eq(borrowedBooks.bookId, books.id))]: a loan
    whose book is missing yields no row. *)
Definition join_loan (bs : gmap Z Book) (kl : Z * BorrowedBook)
    : option BorrowedBookWithDetails :=
  match bs !! bookId (snd kl) with
  | Some b => Some (kl, b)
  | None => None
  end.

Definition join_purchase (bs : gmap Z Book) (kp : Z * Purchase)
    : option PurchaseWithDetails :=
  match bs !! purchase_bookId (snd kp) with
  | Some b => Some (kp, b)
  | None => None
  end.

Definition by_borrowedAt_desc (x y : BorrowedBookWithDetails) : Prop :=
  desc_nulls_first (borrowedAt (snd (fst x))) (borrowedAt (snd (fst y))).

Definition by_purchasedAt_desc (x y : PurchaseWithDetails) : Prop :=
  desc_nulls_first (purchasedAt (snd (fst x))) (purchasedAt (snd (fst y))).

#[global] Instance by_borrowedAt_desc_dec x y :
  Decision (by_borrowedAt_desc x y).
Proof. unfold by_borrowedAt_desc. apply _. Defined.

#[global] Instance by_purchasedAt_desc_dec x y :
  Decision (by_purchasedAt_desc x y).
Proof. unfold by_purchasedAt_desc. apply _. Defined.

Definition getUserBorrowedBooks (uid : string)
    : Promise (list BorrowedBookWithDetails) :=
  fun db =>
    (db,
     Fulfilled
       (merge_sort by_borrowedAt_desc
          (omap (join_loan (books db))
             (filter (fun kl => userId (snd kl) = uid /\
                                status (snd kl) = "borrowed")
                     (map_to_list (borrowedBooks db)))))).

(** The date condition is a comment in the source: only the status is
    tested, and there is no [orderBy]. *)
Definition getOverdueBooks (now : Z) : Promise (list BorrowedBookWithDetails) :=
  fun db =>
    (db,
     Fulfilled
       (omap (join_loan (books db))
          (filter (fun kl => status (snd kl) = "borrowed")
                  (map_to_list (borrowedBooks db))))).

Definition getUserPurchases (uid : string)
    : Promise (list PurchaseWithDetails) :=
  fun db =>
    (db,
     Fulfilled
       (merge_sort by_purchasedAt_desc
          (omap (join_purchase (books db))
             (filter (fun kp => purchase_userId (snd kp) = uid)
                     (map_to_list (purchases db)))))).

(** ** The other handlers ([server/routes.ts]) *)

(** An answer whose body is a value of type [A], or a status code with
    a message. *)
Inductive Reply (A : Type) :=
| ReplyJson (a : A)
| ReplyStatus (code : Z) (message : string).
Arguments ReplyJson {A} a.
Arguments ReplyStatus {A} code message.

Definition Endpoint (A : Type) : Type := Db -> Db * Reply A.

Definition try_catch_reply {A} (p : Promise (Reply A)) (message : string)
    : Endpoint A :=
  fun db =>
    match p db with
    | (db', Fulfilled r) => (db', r)
    | (db', Rejected _) => (db', ReplyStatus 500 message)
    end.

(** [GET /api/books/:id]. *)
Definition get_api_books_id (id : Z) : Endpoint (Z * Book) :=
  try_catch_reply
    (let* book := getBookById id in
     match book with
     | None => resolve (ReplyStatus 404 "Book not found")
     | Some b => resolve (ReplyJson (id, b))
     end)
    "Failed to fetch book".

(** [PUT /api/books/:id], on a body [insertBookSchema.partial().parse]
    accepts; [res.json(book)] is sent also when [book] is [undefined]. *)
Definition put_api_books_id (now : Z) (uid : string) (id : Z)
    (bookData : BookPatch) : Endpoint (option (Z * Book)) :=
  try_catch_reply
    (let* user := getUser uid in
     if not_admin user
     then resolve (ReplyStatus 403 "Admin access required")
     else
       let* book := updateBook now id bookData in
       resolve (ReplyJson book))
    "Failed to update book".

(** [DELETE /api/books/:id]. *)
Definition delete_api_books_id (uid : string) (id : Z) : Handler :=
  try_catch
    (let* user := getUser uid in
     if not_admin user
     then resolve (res_status 403 "Admin access required")
     else
       let* _ := deleteBook id in
       resolve (res_json (Message "Book deleted successfully")))
    "Failed to delete book".

(** [GET /api/borrowed]. *)
Definition get_api_borrowed (uid : string)
    : Endpoint (list BorrowedBookWithDetails) :=
  try_catch_reply
    (let* borrowedBooks := getUserBorrowedBooks uid in
     resolve (ReplyJson borrowedBooks))
    "Failed to fetch borrowed books".

(** [GET /api/purchases]. *)
Definition get_api_purchases (uid : string)
    : Endpoint (list PurchaseWithDetails) :=
  try_catch_reply
    (let* purchases := getUserPurchases uid in
     resolve (ReplyJson purchases))
    "Failed to fetch purchases".

(** ** Sequences of writes

    Every way the modelled code writes to the database: the six writing
    handlers and [upsertUser], which the authentication layer calls at
    login. *)

Inductive Command :=
| Login (userData : UpsertUser)
| PostBook (now : Z) (uid : string) (bookData : InsertBook)
| PutBook (now : Z) (uid : string) (id : Z) (bookData : BookPatch)
| DeleteBook (uid : string) (id : Z)
| PostBorrow (now : Z) (uid : string) (bid : Z) (due : Z)
| PostReturn (now : Z) (borrowId : Z)
| PostRenew (borrowId : Z) (newDueDate : Z)
| PostPurchase (now : Z) (uid : string) (bid : Z) (p : Z).

Definition exec (c : Command) (db : Db) : Db :=
  match c with
  | Login userData => fst (upsertUser userData db)
  | PostBook now uid bookData => fst (post_api_books now uid bookData db)
  | PutBook now uid id bookData => fst (put_api_books_id now uid id bookData db)
  | DeleteBook uid id => fst (delete_api_books_id uid id db)
  | PostBorrow now uid bid due => fst (post_api_borrow now uid bid due db)
  | PostReturn now borrowId => fst (post_api_return now borrowId db)
  | PostRenew borrowId newDueDate => fst (post_api_renew borrowId newDueDate db)
  | PostPurchase now uid bid p => fst (post_api_purchase now uid bid p db)
  end.

Definition exec_all (cs : list Command) (db : Db) : Db :=
  foldl (fun d c => exec c d) db cs.

(** *** Invariants of the database *)

(** Every key is below its table's sequence. *)
Definition keys_below_seq (db : Db) : Prop :=
  (forall id b, books db !! id = Some b -> id < books_id_seq db) /\
  (forall id l, borrowedBooks db !! id = Some l ->
                id < borrowed_books_id_seq db) /\
  (forall id p, purchases db !! id = Some p -> id < purchases_id_seq db).

(** Every loan and every purchase names an existing user and an
    existing book. *)
Definition references_resolve (db : Db) : Prop :=
  (forall id l, borrowedBooks db !! id = Some l ->
     is_Some (users db !! userId l) /\ is_Some (books db !! bookId l)) /\
  (forall id p, purchases db !! id = Some p ->
     is_Some (users db !! purchase_userId p) /\
     is_Some (books db !! purchase_bookId p)).

(** No two books share a non-null ISBN. *)
Definition isbn_unique (db : Db) : Prop :=
  forall i j bi bj s,
    books db !! i = Some bi -> books db !! j = Some bj ->
    isbn bi = Some s -> isbn bj = Some s -> i = j.

(** ** The book card ([BookCard.tsx]) *)

Record Availability := mkAvailability {
  av_text : string;
  av_color : string;
  canBorrow : bool
}.

(** [getAvailabilityStatus()], for the card's [book]. *)
Definition getAvailabilityStatus (book : Book) : Availability :=
  if availableCopies book =? 0
  then mkAvailability "Checked Out" "bg-library-error text-white" false
  else if availableCopies book <=? 2
  then mkAvailability (pretty (availableCopies book) +:+ " Available")
                      "bg-library-warning text-white" true
  else mkAvailability "Available" "bg-library-success text-white" true.

(** * Properties *)

(** ** Dashboard status *)

Lemma ms_per_day_pos : 0 < ms_per_day.
Proof. reflexivity. Qed.

(** [ceil_div a b] is the least integer [d] with [a <= d * b]. *)
Lemma ceil_div_spec (a b d : Z) :
  0 < b -> (ceil_div a b = d <-> (d - 1) * b < a <= d * b).
Proof.
  intros Hb. unfold ceil_div. split.
  - intros <-.
    pose proof (Z.mul_div_le (- a) b Hb).
    pose proof (Z.mul_succ_div_gt (- a) b Hb). nia.
  - intros [Hlo Hhi].
    assert (Z.div (- a) b = - d) as ->; [|lia].
    symmetry. apply Z.div_unique with (r := d * b - a); lia.
Qed.

Lemma diffDays_shift (now k : Z) : diffDays (now + k * ms_per_day) now = k.
Proof.
  unfold diffDays. apply ceil_div_spec; [apply ms_per_day_pos|].
  pose proof ms_per_day_pos. nia.
Qed.

(** C6. The badge is a function of [dueDate] and [now] alone: with
    [diffDays] the ceiling of their difference in days, it reads
    "Overdue" exactly when [diffDays < 0], "Due Soon" exactly when
    [0 <= diffDays <= 3] and "On Time" otherwise; a due date one day
    back is Overdue, two days ahead Due Soon, ten days ahead On Time. *)
Theorem getStatus_rule (due now : Z) :
  (forall d, diffDays due now = d <->
             (d - 1) * ms_per_day < due - now <= d * ms_per_day) /\
  (text (getStatus due now) = "Overdue" <-> diffDays due now < 0) /\
  (text (getStatus due now) = "Due Soon" <-> 0 <= diffDays due now <= 3) /\
  (text (getStatus due now) = "On Time" <-> 3 < diffDays due now) /\
  text (getStatus (now - ms_per_day) now) = "Overdue" /\
  text (getStatus (now + 2 * ms_per_day) now) = "Due Soon" /\
  text (getStatus (now + 10 * ms_per_day) now) = "On Time".
Proof.
  split; [intros d; apply ceil_div_spec, ms_per_day_pos|].
  assert (now - ms_per_day = now + (-1) * ms_per_day) as -> by lia.
  unfold getStatus. rewrite !diffDays_shift.
  destruct (Z.ltb_spec (diffDays due now) 0);
    [|destruct (Z.leb_spec (diffDays due now) 3)]; simpl;
    repeat split; intros; first [done | lia].
Qed.

(** ** Unfolding the handlers *)

Ltac unfold_storage :=
  unfold borrowBook, returnBook, renewBook, purchaseBook, createBook,
    update_returned, update_availableCopies, insert_borrowedBooks,
    insert_purchases, insert_books, getBookById, getUser,
    count_minus_one, count_plus_one, await, resolve, reject.

Ltac unfold_handler :=
  unfold handle, post_api_borrow, post_api_return, post_api_renew,
    post_api_purchase, post_api_books, try_catch;
  unfold_storage.

(** ** Returning *)



(** ** Borrowing *)



(** ** Renewing *)


Lemma alter_absent {A} (f : A -> A) (i : Z) (m : gmap Z A) :
  m !! i = None -> alter f i m = m.
Proof.
  intros Hnone. apply map_eq. intros j. rewrite lookup_alter.
  case_decide; [subst; by rewrite Hnone | done].
Qed.




(** ** Purchasing *)

(** C7, as the code has it. A purchase request never changes a book.
    It is answered 500 and records nothing when the referenced book
    does not exist (the insert breaks the foreign key). When the user
    and the book exist, the price fits the column and the next key is
    free, it is answered 200 and the new row holds the price sent in
    the request body. *)
Theorem purchase_records_request_price
    (now : Z) (uid : string) (bid p : Z) (db : Db) :
  books (fst (post_api_purchase now uid bid p db)) = books db /\
  (books db !! bid = None ->
     snd (post_api_purchase now uid bid p db)
       = res_status 500 "Failed to purchase book" /\
     purchases (fst (post_api_purchase now uid bid p db)) = purchases db) /\
  (is_Some (users db !! uid) -> is_Some (books db !! bid) ->
   decimal_10_2_ok p = true ->
   purchases db !! purchases_id_seq db = None ->
     snd (post_api_purchase now uid bid p db)
       = res_json (PurchaseJson (purchases_id_seq db,
                                 mkPurchase uid bid p (Some now))) /\
     purchases (fst (post_api_purchase now uid bid p db))
       = <[purchases_id_seq db := mkPurchase uid bid p (Some now)]>
           (purchases db)).
Proof.
  unfold_handler. split; [|split].
  - destruct (decimal_10_2_ok p), (purchases db !! purchases_id_seq db),
      (users db !! uid), (books db !! bid); reflexivity.
  - intros ->.
    destruct (decimal_10_2_ok p), (purchases db !! purchases_id_seq db),
      (users db !! uid); split; reflexivity.
  - intros [u ->] [b ->] -> ->. split; reflexivity.
Qed.

Lemma purchase_records_request_price_witness :
  (is_Some (users db_one_copy !! "alice") /\
   is_Some (books db_one_copy !! 1) /\
   decimal_10_2_ok 999 = true /\
   purchases db_one_copy !! purchases_id_seq db_one_copy = None) /\
  snd (post_api_purchase 3000 "alice" 1 999 db_one_copy)
    = res_json (PurchaseJson (1, mkPurchase "alice" 1 999 (Some 3000))) /\
  purchases (fst (post_api_purchase 3000 "alice" 1 999 db_one_copy))
    = <[1 := mkPurchase "alice" 1 999 (Some 3000)]> (purchases db_one_copy).
Proof.
  assert (is_Some (users db_one_copy !! "alice")) as Hu by (vm_compute; eauto).
  assert (is_Some (books db_one_copy !! 1)) as Hb by (vm_compute; eauto).
  split; [repeat split; assumption|].
  destruct (purchase_records_request_price 3000 "alice" 1 999 db_one_copy)
    as (_ & _ & Hok).
  exact (Hok Hu Hb eq_refl eq_refl).
Defined.

(** C7 as stated fails: the stored price of book 1 is 999, the request
    carries 1, and the recorded purchase has price 1. *)
Lemma purchase_price_is_callers :
  price <$> books db_one_copy !! 1 = Some 999 /\
  snd (post_api_purchase 3000 "alice" 1 1 db_one_copy)
    = res_json (PurchaseJson (1, mkPurchase "alice" 1 1 (Some 3000))) /\
  purchase_price
    <$> purchases (fst (post_api_purchase 3000 "alice" 1 1 db_one_copy)) !! 1
    = Some 1.
Proof. vm_compute. repeat split. Qed.

(** ** The two copy-count updates *)

Lemma update_availableCopies_refused (v : JsValue) (id : Z) (db : Db) :
  update_availableCopies v id db = (db, Rejected InvalidTextRepresentation).
Proof. by destruct v. Qed.

(** [borrowBook] stops at its first statement: nothing is written. *)
Lemma borrowBook_refused (now : Z) (uid : string) (bid due : Z) (db : Db) :
  borrowBook now uid bid due db = (db, Rejected InvalidTextRepresentation).
Proof.
  unfold borrowBook, await. by rewrite update_availableCopies_refused.
Qed.

(** [returnBook] of an existing loan: the loan is marked, the second
    statement is refused. *)
Lemma returnBook_existing (now borrowId : Z) (db : Db) (l : BorrowedBook) :
  borrowedBooks db !! borrowId = Some l ->
  returnBook now borrowId db
    = (with_borrowedBooks (alter (set_returned now) borrowId) db,
       Rejected InvalidTextRepresentation).
Proof.
  intros Hl. unfold returnBook, await, update_returned. rewrite Hl.
  by rewrite update_availableCopies_refused.
Qed.

Lemma returnBook_books (now borrowId : Z) (db : Db) :
  books (fst (returnBook now borrowId db)) = books db.
Proof.
  destruct (borrowedBooks db !! borrowId) as [l|] eqn:Hl.
  - by rewrite (returnBook_existing now borrowId db l Hl).
  - unfold returnBook. by rewrite Hl.
Qed.

Lemma call_books (r : Request) (db : Db) : books (call r db) = books db.
Proof.
  destruct r as [now uid bid due | now borrowId]; unfold call.
  - by rewrite borrowBook_refused.
  - apply returnBook_books.
Qed.

Lemma post_api_borrow_answers (now : Z) (uid : string) (bid due : Z) (db : Db) :
  post_api_borrow now uid bid due db
    = (db, res_status 400 "Book not available for borrowing") \/
  post_api_borrow now uid bid due db
    = (db, res_status 500 "Failed to borrow book").
Proof.
  unfold post_api_borrow, try_catch, await, getBookById, resolve.
  destruct (books db !! bid) as [b|]; [|by left].
  destruct (availableCopies b =? 0); [by left|].
  cbv beta. rewrite borrowBook_refused. by right.
Qed.

Lemma handle_books (r : Request) (db : Db) :
  books (fst (handle r db)) = books db.
Proof.
  destruct r as [now uid bid due | now borrowId]; unfold handle.
  - by destruct (post_api_borrow_answers now uid bid due db) as [-> | ->].
  - unfold post_api_return, try_catch, await, resolve.
    pose proof (returnBook_books now borrowId db) as Hsame.
    by destruct (returnBook now borrowId db) as [db1 [[]|e]].
Qed.

Lemma serve_books (rs : list Request) (db : Db) :
  books (serve rs db) = books db.
Proof.
  revert db. induction rs as [|r rs IH]; intros db; [done|].
  simpl. by rewrite IH, handle_books.
Qed.

Lemma call_all_books (rs : list Request) (db : Db) :
  books (call_all rs db) = books db.
Proof.
  revert db. induction rs as [|r rs IH]; intros db; [done|].
  simpl. by rewrite IH, call_books.
Qed.

(** ** The copy-count invariant *)

(** C1. On a database where every book has
    [0 <= availableCopies <= totalCopies], the bounds hold after any
    sequence of borrow and return operations, served by the handlers
    or called on the storage layer: [borrowBook] does not drive
    [availableCopies] below 0 and [returnBook] does not raise it above
    [totalCopies]. Neither moves it at all: the book table is as
    before. *)
Theorem borrow_return_keep_copy_bounds (rs : list Request) (db : Db) :
  copies_nonneg db -> copies_bounded db ->
  (copies_nonneg (serve rs db) /\ copies_bounded (serve rs db)) /\
  (copies_nonneg (call_all rs db) /\ copies_bounded (call_all rs db)) /\
  books (serve rs db) = books db /\
  books (call_all rs db) = books db.
Proof.
  intros Hlow Hhigh. unfold copies_nonneg, copies_bounded.
  rewrite serve_books, call_all_books. done.
Qed.

Lemma db_one_copy_nonneg : copies_nonneg db_one_copy.
Proof.
  intros id b Hb. unfold db_one_copy in Hb. simpl in Hb.
  apply lookup_singleton_Some in Hb as [_ <-]. simpl. lia.
Qed.

Lemma db_one_copy_bounded : copies_bounded db_one_copy.
Proof.
  intros id b Hb. unfold db_one_copy in Hb. simpl in Hb.
  apply lookup_singleton_Some in Hb as [_ <-]. simpl. lia.
Qed.

Lemma borrow_return_keep_copy_bounds_witness :
  (copies_nonneg db_one_copy /\ copies_bounded db_one_copy) /\
  (copies_nonneg
     (serve [Borrow 1000 "alice" 1 5000; Return 2000 1; Return 3000 1]
            db_one_copy) /\
   copies_bounded
     (serve [Borrow 1000 "alice" 1 5000; Return 2000 1; Return 3000 1]
            db_one_copy)) /\
  (copies_nonneg
     (call_all [Borrow 1000 "alice" 1 5000; Return 2000 1; Return 3000 1]
               db_one_copy) /\
   copies_bounded
     (call_all [Borrow 1000 "alice" 1 5000; Return 2000 1; Return 3000 1]
               db_one_copy)).
Proof.
  split; [split; [exact db_one_copy_nonneg | exact db_one_copy_bounded]|].
  destruct (borrow_return_keep_copy_bounds
              [Borrow 1000 "alice" 1 5000; Return 2000 1; Return 3000 1]
              db_one_copy db_one_copy_nonneg db_one_copy_bounded)
    as (Hserve & Hcall & _).
  split; [exact Hserve | exact Hcall].
Defined.

(** ** Returning a loan *)

(** What a return request for an existing loan does, whatever the
    loan's status: the loan is marked 'returned' at [now], the answer is
    500 "Failed to return book", and no book changes. *)
Lemma post_api_return_existing
    (now borrowId : Z) (db : Db) (l : BorrowedBook) :
  borrowedBooks db !! borrowId = Some l ->
  post_api_return now borrowId db
    = (with_borrowedBooks (alter (set_returned now) borrowId) db,
       res_status 500 "Failed to return book").
Proof.
  intros Hl. unfold post_api_return, try_catch, await, resolve.
  by rewrite (returnBook_existing now borrowId db l Hl).
Qed.

(** C2, at the first return of a borrowed loan. Loan 1 is in status
    'borrowed' and its book has [availableCopies = 0]. The return
    request marks the loan 'returned' with [returnedAt] set, but the
    update meant to add the copy back is refused: the answer is 500
    "Failed to return book" and [availableCopies] is still 0, where the
    claim has an increment by exactly 1. *)
Theorem return_marks_loan_without_increment :
  borrowedBooks db_on_loan !! 1
    = Some (mkBorrowedBook "alice" 1 (Some 1000) 5000 None "borrowed") /\
  books db_on_loan !! 1 = Some (sample_book 1 0) /\
  snd (post_api_return 2000 1 db_on_loan)
    = res_status 500 "Failed to return book" /\
  borrowedBooks (fst (post_api_return 2000 1 db_on_loan)) !! 1
    = Some (mkBorrowedBook "alice" 1 (Some 1000) 5000 (Some 2000)
                           "returned") /\
  books (fst (post_api_return 2000 1 db_on_loan)) !! 1
    = Some (sample_book 1 0).
Proof.
  rewrite (post_api_return_existing 2000 1 db_on_loan _ eq_refl).
  repeat split.
Qed.

(** ** Borrowing the same book again *)

(** C3, as the code has it. The borrow handler and [borrowBook] never
    read the loans: two databases with the same books get the same
    answer to the same borrow request, whatever loans they hold, and
    the book table of each is as before; there is no check for a loan
    of the same user and book. A request that is not answered 200
    creates no loan. *)
Theorem borrow_never_reads_loans
    (now : Z) (uid : string) (bid due : Z) (db db' : Db) :
  books db = books db' ->
  snd (post_api_borrow now uid bid due db)
    = snd (post_api_borrow now uid bid due db') /\
  books (fst (post_api_borrow now uid bid due db)) = books db /\
  (statusCode (snd (post_api_borrow now uid bid due db)) <> 200 ->
   borrowedBooks (fst (post_api_borrow now uid bid due db))
     = borrowedBooks db).
Proof.
  intros Hsame. split; [|split].
  - unfold post_api_borrow, try_catch, await, getBookById, resolve.
    rewrite Hsame. destruct (books db' !! bid) as [b|]; [|done].
    destruct (availableCopies b =? 0); [done|].
    cbv beta. by rewrite !borrowBook_refused.
  - by destruct (post_api_borrow_answers now uid bid due db) as [-> | ->].
  - by destruct (post_api_borrow_answers now uid bid due db) as [-> | ->].
Qed.

Lemma borrow_never_reads_loans_witness :
  books db_two_on_loan = books db_two_no_loan /\
  snd (post_api_borrow 1500 "alice" 1 5500 db_two_on_loan)
    = snd (post_api_borrow 1500 "alice" 1 5500 db_two_no_loan).
Proof.
  assert (books db_two_on_loan = books db_two_no_loan) as Hsame
    by reflexivity.
  split; [exact Hsame|].
  exact (proj1 (borrow_never_reads_loans 1500 "alice" 1 5500 db_two_on_loan
                  db_two_no_loan Hsame)).
Defined.

(** C3 as stated fails on the kind of failure. alice holds loan 1 of
    book 1, in status 'borrowed', and a copy is left. Her second borrow
    is not refused as 'already borrowed': it is answered by the catch
    block, 500 "Failed to borrow book", the very answer the same
    request gets on the database with the same book and no loan at
    all. *)
Lemma second_borrow_fails_like_first :
  borrowedBooks db_two_on_loan !! 1
    = Some (mkBorrowedBook "alice" 1 (Some 1000) 5000 None "borrowed") /\
  availableCopies <$> books db_two_on_loan !! 1 = Some 1 /\
  snd (post_api_borrow 1500 "alice" 1 5500 db_two_on_loan)
    = res_status 500 "Failed to borrow book" /\
  borrowedBooks db_two_no_loan = ∅ /\
  books db_two_no_loan = books db_two_on_loan /\
  snd (post_api_borrow 1500 "alice" 1 5500 db_two_no_loan)
    = res_status 500 "Failed to borrow book".
Proof. vm_compute. repeat split. Qed.

(** ** Creating a book *)

Lemma isbn_taken_spec (s : string) (bs : gmap Z Book) :
  isbn_taken (Some s) bs = true <->
  exists id b, bs !! id = Some b /\ isbn b = Some s.
Proof.
  unfold isbn_taken. rewrite bool_decide_eq_true, Exists_exists. split.
  - intros ([id b] & Hin & Hisbn). exists id, b.
    by apply elem_of_map_to_list in Hin.
  - intros (id & b & Hb & Hisbn). exists (id, b).
    by rewrite elem_of_map_to_list.
Qed.

Lemma isbn_free (i : option string) (bs : gmap Z Book) :
  (forall s id b, i = Some s -> bs !! id = Some b -> isbn b <> Some s) ->
  isbn_taken i bs = false.
Proof.
  intros Hfree. destruct i as [s|]; [|done].
  apply not_true_is_false. intros (id & b & Hb & Hisbn)%isbn_taken_spec.
  by eapply Hfree.
Qed.

(** C9, as the code has it. Let the values fit their columns. When
    the next key is free and the ISBN, if given, is in no other book,
    [createBook] resolves to the new book, stored under the next key,
    with [availableCopies] as given or else the column default 1 (and
    [totalCopies] likewise), whatever the sign of [totalCopies] and
    [price]. When the given ISBN is already some book's ISBN it is
    rejected, [books] is unchanged, and an admin's request is answered
    500 "Failed to create book". *)
Theorem createBook_defaults_and_unique_isbn
    (now : Z) (book : InsertBook) (db : Db) :
  book_fits (book_of_insert now book) = None ->
  (books db !! books_id_seq db = None ->
   (forall s id b, ins_isbn book = Some s -> books db !! id = Some b ->
                   isbn b <> Some s) ->
     exists newBook,
       snd (createBook now book db) = Fulfilled (books_id_seq db, newBook) /\
       books (fst (createBook now book db))
         = <[books_id_seq db := newBook]> (books db) /\
       availableCopies newBook = default 1 (ins_availableCopies book) /\
       totalCopies newBook = default 1 (ins_totalCopies book) /\
       price newBook = ins_price book /\ isbn newBook = ins_isbn book) /\
  (forall s id b,
     ins_isbn book = Some s -> books db !! id = Some b -> isbn b = Some s ->
       snd (createBook now book db) = Rejected UniqueViolation /\
       books (fst (createBook now book db)) = books db /\
       (forall uid, not_admin (users db !! uid) = false ->
          snd (post_api_books now uid book db)
            = res_status 500 "Failed to create book" /\
          books (fst (post_api_books now uid book db)) = books db)).
Proof.
  intros Hfits. split.
  - intros Hkey Hfree. exists (book_of_insert now book).
    unfold createBook, await, resolve, insert_books.
    rewrite Hfits, Hkey.
    rewrite (isbn_free (isbn (book_of_insert now book)) (books db) Hfree).
    done.
  - intros s id b Hs Hb Hisbn.
    assert (isbn_taken (isbn (book_of_insert now book)) (books db) = true)
      as Htaken by (simpl; rewrite Hs; apply isbn_taken_spec; eauto).
    assert (createBook now book db
            = (with_books_id_seq (books_id_seq db + 1) db,
               Rejected UniqueViolation)) as He.
    { unfold createBook, await, resolve, insert_books.
      rewrite Hfits, Htaken. by destruct (books db !! books_id_seq db). }
    rewrite He. simpl. split; [done|]. split; [done|].
    intros uid Hadmin.
    unfold post_api_books, try_catch, await, getUser, resolve.
    by rewrite Hadmin, He.
Qed.

Lemma createBook_defaults_and_unique_isbn_witness :
  ((book_fits (book_of_insert 1000 emma_five_copies) = None /\
    books db_one_copy !! books_id_seq db_one_copy = None /\
    (forall s id b, ins_isbn emma_five_copies = Some s ->
                    books db_one_copy !! id = Some b -> isbn b <> Some s)) /\
   exists newBook,
     snd (createBook 1000 emma_five_copies db_one_copy)
       = Fulfilled (books_id_seq db_one_copy, newBook) /\
     books (fst (createBook 1000 emma_five_copies db_one_copy))
       = <[books_id_seq db_one_copy := newBook]> (books db_one_copy) /\
     availableCopies newBook
       = default 1 (ins_availableCopies emma_five_copies) /\
     totalCopies newBook = default 1 (ins_totalCopies emma_five_copies) /\
     price newBook = ins_price emma_five_copies /\
     isbn newBook = ins_isbn emma_five_copies) /\
  ((book_fits (book_of_insert 1000 emma_same_isbn) = None /\
    ins_isbn emma_same_isbn = Some "9780441013593" /\
    books db_one_copy !! 1 = Some (sample_book 1 1) /\
    isbn (sample_book 1 1) = Some "9780441013593") /\
   snd (createBook 1000 emma_same_isbn db_one_copy)
     = Rejected UniqueViolation /\
   books (fst (createBook 1000 emma_same_isbn db_one_copy))
     = books db_one_copy).
Proof.
  assert (forall s id b, ins_isbn emma_five_copies = Some s ->
            books db_one_copy !! id = Some b -> isbn b <> Some s) as Hfree
    by (intros s id b Hs; simpl in Hs; discriminate).
  split.
  - split; [repeat split; exact Hfree|].
    exact (proj1 (createBook_defaults_and_unique_isbn 1000 emma_five_copies
                    db_one_copy eq_refl) eq_refl Hfree).
  - split; [repeat split|].
    destruct (proj2 (createBook_defaults_and_unique_isbn 1000 emma_same_isbn
                       db_one_copy eq_refl)
                "9780441013593" 1 (sample_book 1 1) eq_refl eq_refl eq_refl)
      as (Hrej & Hbooks & _).
    split; [exact Hrej | exact Hbooks].
Defined.

(** C9 as stated fails. With five copies and [availableCopies] left
    out the new book has [availableCopies = 1], not 5; a book with
    [totalCopies = 0] and one with a negative price are created. *)
Lemma createBook_no_validation :
  (ins_totalCopies emma_five_copies = Some 5 /\
   ins_availableCopies emma_five_copies = None /\
   snd (createBook 1000 emma_five_copies db_one_copy)
     = Fulfilled (2, mkBook "Emma" "Jane Austen" None "Fiction" None None
                            1250 5 1 (Some 0) (Some 1000) (Some 1000))) /\
  (ins_totalCopies emma_no_copy = Some 0 /\
   snd (createBook 1000 emma_no_copy db_one_copy)
     = Fulfilled (2, mkBook "Emma" "Jane Austen" None "Fiction" None None
                            1250 0 0 (Some 0) (Some 1000) (Some 1000)) /\
   snd (post_api_books 1000 "root" emma_no_copy db_one_copy)
     = res_json
         (BookJson (2, mkBook "Emma" "Jane Austen" None "Fiction" None None
                              1250 0 0 (Some 0) (Some 1000) (Some 1000)))) /\
  (ins_price emma_negative_price = -1250 /\
   snd (createBook 1000 emma_negative_price db_one_copy)
     = Fulfilled (2, mkBook "Emma" "Jane Austen" None "Fiction" None None
                            (-1250) 1 1 (Some 0) (Some 1000) (Some 1000))).
Proof. vm_compute. repeat split. Qed.

(** ** Admin statistics *)

(** What the handler answers to an admin, on any database and at any
    time: the first counter rejects, and the catch block answers 500. *)
Lemma admin_stats_answer (now : Z) (uid : string) (db : Db) :
  not_admin (users db !! uid) = false ->
  get_api_admin_stats now uid db
    = (db, res_status 500 "Failed to fetch admin stats").
Proof.
  intros Hadmin.
  unfold get_api_admin_stats, try_catch, await, getUser, resolve,
    getTotalBooks, db_count, destructure_first, reject.
  by rewrite Hadmin.
Qed.

(** C8, on the scenario of the specification (two books, one loan
    made today, one loan of last month that is overdue, one purchase
    today at 9.99). The claim has the answer [totalBooks = 2],
    [borrowedToday = 1], [overdue = 1], [revenueToday = 9.99]. The
    handler answers an admin 500 "Failed to fetch admin stats": each of
    the four counters throws on destructuring its count. The numbers
    they had counted are not the claim's either: the two unfiltered
    queries count both loans, and the revenue is the constant 1847. *)
Theorem admin_stats_scenario_fails :
  size (books db_stats) = 2%nat /\
  borrowedBooks db_stats
    = {[ 1 := mkBorrowedBook "alice" 1 (Some last_month)
                             (last_month + 14 * ms_per_day) None "borrowed";
         2 := mkBorrowedBook "alice" 2 (Some today)
                             (today + 14 * ms_per_day) None "borrowed" ]} /\
  last_month + 14 * ms_per_day < today /\
  purchases db_stats = {[ 1 := mkPurchase "alice" 1 999 (Some today) ]} /\
  get_api_admin_stats today "root" db_stats
    = (db_stats, res_status 500 "Failed to fetch admin stats") /\
  snd (getTotalBorrowedToday today db_stats) = Rejected TypeError /\
  snd (getTotalOverdue today db_stats) = Rejected TypeError /\
  Z.of_nat (size (borrowedBooks db_stats)) = 2 /\
  count_rows (fun l => bool_decide (status l = "borrowed"))
             (borrowedBooks db_stats) = 2 /\
  snd (getTotalRevenueToday today db_stats) = Fulfilled 1847.
Proof. vm_compute. repeat split. Qed.

(** * Further properties of the storage layer and the handlers *)

(** ** The admin gate *)

(** A caller who is not an admin (no user row, or a role other than
    "admin") is answered 403 by the four admin handlers, whatever the
    rest of the request, and the database is left as it was. *)
Theorem admin_handlers_forbidden (uid : string) (db : Db) :
  not_admin (users db !! uid) = true ->
  (forall now bookData,
     post_api_books now uid bookData db
       = (db, res_status 403 "Admin access required")) /\
  (forall now id bookData,
     put_api_books_id now uid id bookData db
       = (db, ReplyStatus 403 "Admin access required")) /\
  (forall id,
     delete_api_books_id uid id db
       = (db, res_status 403 "Admin access required")) /\
  (forall now,
     get_api_admin_stats now uid db
       = (db, res_status 403 "Admin access required")).
Proof.
  intros Hna.
  unfold post_api_books, put_api_books_id, delete_api_books_id,
    get_api_admin_stats, try_catch, try_catch_reply, await, getUser, resolve.
  rewrite Hna. done.
Qed.

Lemma admin_handlers_forbidden_witness :
  not_admin (users db_one_copy !! "alice") = true /\
  delete_api_books_id "alice" 1 db_one_copy
    = (db_one_copy, res_status 403 "Admin access required").
Proof.
  split; [reflexivity|].
  destruct (admin_handlers_forbidden "alice" db_one_copy eq_refl)
    as (_ & _ & Hdel & _).
  exact (Hdel 1).
Defined.

(** ** Updating a book *)

Lemma isbn_free_elsewhere (i : option string) (id : Z) (bs : gmap Z Book) :
  (forall s j bj, i = Some s -> j <> id -> bs !! j = Some bj ->
                  isbn bj <> Some s) ->
  isbn_taken i (delete id bs) = false.
Proof.
  intros Hfree. apply isbn_free. intros s j bj Hs Hj.
  apply lookup_delete_Some in Hj as [Hne Hj]. eauto.
Qed.



(** An admin's update of an existing book writes the columns the patch
    names and [updatedAt], and keeps every other column. In particular
    a patch without [availableCopies] leaves [availableCopies] as it
    is, also when it lowers [totalCopies] below it: nothing is clamped.
    No other book, no loan and no purchase changes. *)
Theorem put_book_keeps_unnamed_columns
    (now : Z) (uid : string) (id : Z) (bookData : BookPatch)
    (db : Db) (b : Book) :
  not_admin (users db !! uid) = false ->
  books db !! id = Some b ->
  patch_fits bookData = None ->
  (forall s j bj, patch_isbn bookData = Some s -> j <> id ->
                  books db !! j = Some bj -> isbn bj <> Some s) ->
  exists b',
    snd (put_api_books_id now uid id bookData db) = ReplyJson (Some (id, b')) /\
    books (fst (put_api_books_id now uid id bookData db))
      = <[id := b']> (books db) /\
    title b' = default (title b) (patch_title bookData) /\
    author b' = default (author b) (patch_author bookData) /\
    isbn b' = from_option Some (isbn b) (patch_isbn bookData) /\
    category b' = default (category b) (patch_category bookData) /\
    description b'
      = from_option Some (description b) (patch_description bookData) /\
    coverImageUrl b'
      = from_option Some (coverImageUrl b) (patch_coverImageUrl bookData) /\
    price b' = default (price b) (patch_price bookData) /\
    totalCopies b' = default (totalCopies b) (patch_totalCopies bookData) /\
    availableCopies b'
      = default (availableCopies b) (patch_availableCopies bookData) /\
    rating b' = default (rating b) (patch_rating bookData) /\
    createdAt b' = createdAt b /\ updatedAt b' = Some now /\
    users (fst (put_api_books_id now uid id bookData db)) = users db /\
    borrowedBooks (fst (put_api_books_id now uid id bookData db))
      = borrowedBooks db /\
    purchases (fst (put_api_books_id now uid id bookData db)) = purchases db.
Proof.
  intros Hadmin Hb Hfits Hfree. exists (apply_patch now bookData b).
  unfold put_api_books_id, try_catch_reply, await, getUser, resolve,
    updateBook.
  rewrite Hadmin, Hb, Hfits, (isbn_free_elsewhere _ _ _ Hfree).
  repeat split.
Qed.

Lemma put_book_keeps_unnamed_columns_witness :
  (not_admin (users db_two_copies !! "root") = false /\
   books db_two_copies !! 1 = Some (sample_book 2 2) /\
   patch_fits (mkBookPatch None None None None None None None (Some 1)
                           None None) = None) /\
  exists b',
    snd (put_api_books_id 1000 "root" 1
           (mkBookPatch None None None None None None None (Some 1) None None)
           db_two_copies) = ReplyJson (Some (1, b')) /\
    totalCopies b' = 1 /\ availableCopies b' = 2 /\ title b' = "Dune".
Proof.
  split; [repeat split|].
  destruct (put_book_keeps_unnamed_columns 1000 "root" 1
              (mkBookPatch None None None None None None None (Some 1)
                           None None)
              db_two_copies (sample_book 2 2) eq_refl eq_refl eq_refl)
    as (b' & Hres & _ & Htitle & _ & _ & _ & _ & _ & _ & Htotal & Havail & _).
  { intros s j bj Hs. discriminate Hs. }
  exists b'. split; [exact Hres|].
  split; [exact Htotal|]. split; [exact Havail | exact Htitle].
Defined.

(** ** Deleting a book *)

Lemma book_referenced_spec (id : Z) (db : Db) :
  book_referenced id db = true <->
  (exists j l, borrowedBooks db !! j = Some l /\ bookId l = id) \/
  (exists j p, purchases db !! j = Some p /\ purchase_bookId p = id).
Proof.
  unfold book_referenced.
  rewrite orb_true_iff, !bool_decide_eq_true, !Exists_exists.
  split; (intros [H|H]; [left|right]).
  - destruct H as ([j l] & Hin & Hid). exists j, l.
    by apply elem_of_map_to_list in Hin.
  - destruct H as ([j p] & Hin & Hid). exists j, p.
    by apply elem_of_map_to_list in Hin.
  - destruct H as (j & l & Hl & Hid). exists (j, l).
    by rewrite elem_of_map_to_list.
  - destruct H as (j & p & Hp & Hid). exists (j, p).
    by rewrite elem_of_map_to_list.
Qed.

(** A book that some loan names, borrowed or returned, or that some
    purchase names, cannot be deleted: the admin's request is answered
    500 "Failed to delete book" and the database is left as it was. *)
Theorem delete_referenced_book_refused (uid : string) (id : Z) (db : Db) :
  not_admin (users db !! uid) = false ->
  is_Some (books db !! id) ->
  (exists j l, borrowedBooks db !! j = Some l /\ bookId l = id) \/
  (exists j p, purchases db !! j = Some p /\ purchase_bookId p = id) ->
  delete_api_books_id uid id db
    = (db, res_status 500 "Failed to delete book").
Proof.
  intros Hadmin [b Hb] Href%book_referenced_spec.
  unfold delete_api_books_id, try_catch, await, getUser, resolve, deleteBook.
  by rewrite Hadmin, Hb, Href.
Qed.

Lemma delete_referenced_book_refused_witness :
  (not_admin (users db_returned !! "root") = false /\
   is_Some (books db_returned !! 1) /\
   borrowedBooks db_returned !! 1
     = Some (mkBorrowedBook "alice" 1 (Some 1000) 5000 (Some 2000)
                            "returned")) /\
  delete_api_books_id "root" 1 db_returned
    = (db_returned, res_status 500 "Failed to delete book").
Proof.
  assert (is_Some (books db_returned !! 1)) as Hb by (vm_compute; eauto).
  split; [repeat split; exact Hb|].
  apply (delete_referenced_book_refused "root" 1 db_returned eq_refl Hb).
  left. exists 1, (mkBorrowedBook "alice" 1 (Some 1000) 5000 (Some 2000)
                                  "returned").
  split; reflexivity.
Defined.



(** ** Invariants kept by every write *)

Ltac unfold_exec :=
  unfold exec, post_api_books, put_api_books_id, delete_api_books_id,
    post_api_borrow, post_api_return, post_api_renew, post_api_purchase,
    upsertUser, try_catch, try_catch_reply, createBook, updateBook,
    deleteBook, borrowBook, returnBook, renewBook, purchaseBook,
    insert_books, insert_borrowedBooks, insert_purchases,
    update_availableCopies, update_returned, getUser, getBookById,
    count_minus_one, count_plus_one, await, resolve, reject.

Ltac split_cases := repeat (case_match; simpl in *; simplify_eq).

Ltac unfold_with :=
  unfold with_books, with_books_id_seq, with_borrowedBooks,
    with_borrowed_books_id_seq, with_purchases, with_purchases_id_seq in *;
  simpl in *.

Ltac invert_lookup H :=
  first
    [ apply lookup_insert_Some in H as [[<- <-]|[? H]]
    | apply lookup_delete_Some in H as [? H]
    | apply lookup_alter_Some in H as [(? & ? & ? & ?)|[? H]] ];
  simplify_eq; simpl in *.

Lemma is_Some_insert {K A} `{Countable K} (m : gmap K A) (j k : K) (v : A) :
  is_Some (m !! k) -> is_Some (<[j := v]> m !! k).
Proof. intros. apply lookup_insert_is_Some'. by right. Qed.

Lemma unreferenced_loan (id : Z) (db : Db) (k : Z) (l : BorrowedBook) :
  book_referenced id db = false ->
  borrowedBooks db !! k = Some l -> bookId l <> id.
Proof.
  intros Href Hl Hid.
  assert (book_referenced id db = true) as Habs
    by (apply book_referenced_spec; left; eauto).
  congruence.
Qed.

Lemma unreferenced_purchase (id : Z) (db : Db) (k : Z) (p : Purchase) :
  book_referenced id db = false ->
  purchases db !! k = Some p -> purchase_bookId p <> id.
Proof.
  intros Href Hp Hid.
  assert (book_referenced id db = true) as Habs
    by (apply book_referenced_spec; right; eauto).
  congruence.
Qed.

Lemma exec_keys_below_seq (c : Command) (db : Db) :
  keys_below_seq db -> keys_below_seq (exec c db).
Proof.
  intros (Hb & Hl & Hp).
  destruct c; unfold_exec; simpl; split_cases;
    (split; [|split]); intros k v Hk; simpl in *; eauto.
  all: try invert_lookup Hk; eauto.
  all: try (match goal with
            | H : _ !! ?k = Some _ |- ?k < _ + 1 =>
                first [ specialize (Hb _ _ H) | specialize (Hl _ _ H)
                      | specialize (Hp _ _ H) ]
            end).
  all: lia.
Qed.

Lemma exec_references_resolve (c : Command) (db : Db) :
  references_resolve db -> references_resolve (exec c db).
Proof.
  intros (Hl & Hp).
  destruct c; unfold_exec; simpl; split_cases;
    (split; intros k v Hk; simpl in *).
  all: try invert_lookup Hk.
  all: try (match goal with
            | H : borrowedBooks _ !! _ = Some ?l |- context [userId ?l] =>
                destruct (Hl _ _ H) as [Hu Hb]
            | H : purchases _ !! _ = Some ?p
              |- context [purchase_userId ?p] =>
                destruct (Hp _ _ H) as [Hu Hb]
            end).
  all: try (split; first [ done | by apply is_Some_insert
                         | by eauto using is_Some_insert ]).
  - split; [done|]. apply lookup_delete_is_Some. split; [|done].
    intros ->. by eapply unreferenced_loan.
  - split; [done|]. apply lookup_delete_is_Some. split; [|done].
    intros ->. by eapply unreferenced_purchase.
Qed.

Lemma isbn_taken_false (s : string) (bs : gmap Z Book) (j : Z) (bj : Book) :
  isbn_taken (Some s) bs = false -> bs !! j = Some bj -> isbn bj <> Some s.
Proof.
  intros Hfree Hj Hs.
  assert (isbn_taken (Some s) bs = true) as Habs
    by (apply isbn_taken_spec; eauto).
  congruence.
Qed.

Lemma isbn_unique_insert (bs : gmap Z Book) (id : Z) (row : Book) :
  (forall i j bi bj s, bs !! i = Some bi -> bs !! j = Some bj ->
                       isbn bi = Some s -> isbn bj = Some s -> i = j) ->
  isbn_taken (isbn row) (delete id bs) = false ->
  forall i j bi bj s,
    <[id := row]> bs !! i = Some bi -> <[id := row]> bs !! j = Some bj ->
    isbn bi = Some s -> isbn bj = Some s -> i = j.
Proof.
  intros Hinv Hfree i j bi bj s Hi Hj Hsi Hsj.
  apply lookup_insert_Some in Hi as [[<- <-]|[Hni Hi]];
    apply lookup_insert_Some in Hj as [[<- <-]|[Hnj Hj]]; eauto.
  - exfalso. rewrite Hsi in Hfree.
    refine (isbn_taken_false _ _ j bj Hfree _ Hsj).
    by rewrite lookup_delete_ne.
  - exfalso. rewrite Hsj in Hfree.
    refine (isbn_taken_false _ _ i bi Hfree _ Hsi).
    by rewrite lookup_delete_ne.
Qed.

Lemma isbn_unique_same_isbn (bs : gmap Z Book) (id : Z) (b row : Book) :
  (forall i j bi bj s, bs !! i = Some bi -> bs !! j = Some bj ->
                       isbn bi = Some s -> isbn bj = Some s -> i = j) ->
  bs !! id = Some b -> isbn row = isbn b ->
  forall i j bi bj s,
    <[id := row]> bs !! i = Some bi -> <[id := row]> bs !! j = Some bj ->
    isbn bi = Some s -> isbn bj = Some s -> i = j.
Proof.
  intros Hinv Hb Hsame i j bi bj s Hi Hj Hsi Hsj.
  apply lookup_insert_Some in Hi as [[<- <-]|[Hni Hi]];
    apply lookup_insert_Some in Hj as [[<- <-]|[Hnj Hj]]; eauto.
  - rewrite Hsame in Hsi. eauto.
  - rewrite Hsame in Hsj. eauto.
Qed.

Lemma exec_isbn_unique (c : Command) (db : Db) :
  isbn_unique db -> isbn_unique (exec c db).
Proof.
  intros Hinv.
  destruct c; unfold_exec; simpl; split_cases; try exact Hinv;
    unfold isbn_unique; simpl;
    try (eapply isbn_unique_same_isbn; [exact Hinv|done|done]).
  - apply isbn_unique_insert; [exact Hinv|].
    by rewrite delete_id.
  - destruct (patch_isbn bookData) as [s'|] eqn:Hpatch.
    + apply isbn_unique_insert; [exact Hinv|]. simpl. by rewrite Hpatch.
    + eapply isbn_unique_same_isbn; [exact Hinv|done|]. simpl.
      by rewrite Hpatch.
  - intros i j bi bj s [_ Hi]%lookup_delete_Some [_ Hj]%lookup_delete_Some.
    eauto.
Qed.

(** What was once recorded stays: a loan keeps its user, book and
    borrowing time, and once 'returned' stays 'returned'; a purchase
    does not change at all; a user stays registered. *)
Lemma exec_history (c : Command) (db : Db) :
  (forall id l, borrowedBooks db !! id = Some l ->
     exists l', borrowedBooks (exec c db) !! id = Some l' /\
       userId l' = userId l /\ bookId l' = bookId l /\
       borrowedAt l' = borrowedAt l /\
       (status l = "returned" -> status l' = "returned")) /\
  (forall id p, purchases db !! id = Some p ->
     purchases (exec c db) !! id = Some p) /\
  (forall uid, is_Some (users db !! uid) ->
     is_Some (users (exec c db) !! uid)).
Proof.
  destruct c; unfold_exec; simpl; split_cases;
    (split; [intros k v Hk|split; [intros k v Hk|intros k Hk]]);
    simpl in *; eauto 10 using is_Some_insert.
  all: try (rewrite lookup_insert_ne by congruence; eauto 10).
  all: rewrite lookup_alter; case_decide; simplify_eq;
    try (match goal with
         | H : borrowedBooks _ !! ?k = Some _
           |- context [borrowedBooks _ !! ?k] => rewrite H
         end);
    simpl; eauto 10.
Qed.

Lemma exec_all_cons (c : Command) (cs : list Command) (db : Db) :
  exec_all (c :: cs) db = exec_all cs (exec c db).
Proof. reflexivity. Qed.

Lemma exec_all_invariant (P : Db -> Prop) :
  (forall c db, P db -> P (exec c db)) ->
  forall cs db, P db -> P (exec_all cs db).
Proof.
  intros Hstep cs. induction cs as [|c cs IH]; intros db HP; [done|].
  rewrite exec_all_cons. by apply IH, Hstep.
Qed.

Lemma db_empty_keys_below_seq : keys_below_seq db_empty.
Proof. repeat split; intros id v Hv; simpl in Hv; by rewrite lookup_empty in Hv. Qed.

Lemma db_empty_references_resolve : references_resolve db_empty.
Proof. split; intros id v Hv; simpl in Hv; by rewrite lookup_empty in Hv. Qed.

Lemma db_empty_isbn_unique : isbn_unique db_empty.
Proof. intros i j bi bj s Hi; simpl in Hi; by rewrite lookup_empty in Hi. Qed.

(** Whatever is written, in whatever order, every key stays below its
    table's sequence; so the key the next insert draws is free in each
    of the three tables, and no insert is refused on its primary key. *)
Theorem writes_keep_keys_below_seq (cs : list Command) (db : Db) :
  keys_below_seq db ->
  keys_below_seq (exec_all cs db) /\
  books (exec_all cs db) !! books_id_seq (exec_all cs db) = None /\
  borrowedBooks (exec_all cs db) !! borrowed_books_id_seq (exec_all cs db)
    = None /\
  purchases (exec_all cs db) !! purchases_id_seq (exec_all cs db) = None.
Proof.
  intros Hinv.
  pose proof (exec_all_invariant _ exec_keys_below_seq cs db Hinv)
    as (Hb & Hl & Hp).
  split; [done|]. repeat split.
  - destruct (books (exec_all cs db) !! books_id_seq (exec_all cs db))
      as [b|] eqn:Hk; [|done]. specialize (Hb _ _ Hk). lia.
  - destruct (borrowedBooks (exec_all cs db)
                !! borrowed_books_id_seq (exec_all cs db))
      as [l|] eqn:Hk; [|done]. specialize (Hl _ _ Hk). lia.
  - destruct (purchases (exec_all cs db) !! purchases_id_seq (exec_all cs db))
      as [p|] eqn:Hk; [|done]. specialize (Hp _ _ Hk). lia.
Qed.

Lemma writes_keep_keys_below_seq_witness :
  keys_below_seq db_empty /\
  keys_below_seq
    (exec_all [PostBook last_month "root" dune;
               PostBorrow today "alice" 1 (today + 14 * ms_per_day);
               PostPurchase today "alice" 1 999;
               DeleteBook "root" 1] db_empty).
Proof.
  split; [exact db_empty_keys_below_seq|].
  exact (proj1 (writes_keep_keys_below_seq _ db_empty
                  db_empty_keys_below_seq)).
Defined.

(** Whatever is written, every loan and every purchase keeps naming a
    registered user and an existing book. *)
Theorem writes_keep_references (cs : list Command) (db : Db) :
  references_resolve db -> references_resolve (exec_all cs db).
Proof. apply exec_all_invariant, exec_references_resolve. Qed.

Lemma writes_keep_references_witness :
  references_resolve db_empty /\
  references_resolve
    (exec_all [PostBook last_month "root" dune;
               PostBorrow today "alice" 1 (today + 14 * ms_per_day);
               PostPurchase today "alice" 1 999;
               DeleteBook "root" 1] db_empty).
Proof.
  split; [exact db_empty_references_resolve|].
  exact (writes_keep_references _ db_empty db_empty_references_resolve).
Defined.

(** Whatever is written, no two books come to share an ISBN. *)
Theorem writes_keep_isbn_unique (cs : list Command) (db : Db) :
  isbn_unique db -> isbn_unique (exec_all cs db).
Proof. apply exec_all_invariant, exec_isbn_unique. Qed.

Lemma writes_keep_isbn_unique_witness :
  isbn_unique db_empty /\
  isbn_unique
    (exec_all [PostBook 1000 "root" emma_same_isbn;
               PostBook 2000 "root" emma_same_isbn;
               PutBook 3000 "root" 1
                 (mkBookPatch None None (Some "9780141439587") None None None
                              None None None None)] db_empty).
Proof.
  split; [exact db_empty_isbn_unique|].
  exact (writes_keep_isbn_unique _ db_empty db_empty_isbn_unique).
Defined.

(** Loans are kept for good: whatever is written afterwards, a loan
    is still there under its key with the same user, book and borrowing
    time, and a loan that was 'returned' is still 'returned'. *)
Theorem loans_are_kept (cs : list Command) (db : Db) (id : Z)
    (l : BorrowedBook) :
  borrowedBooks db !! id = Some l ->
  exists l', borrowedBooks (exec_all cs db) !! id = Some l' /\
    userId l' = userId l /\ bookId l' = bookId l /\
    borrowedAt l' = borrowedAt l /\
    (status l = "returned" -> status l' = "returned").
Proof.
  revert db l. induction cs as [|c cs IH]; intros db l Hl; [by eauto 10|].
  rewrite exec_all_cons.
  destruct (proj1 (exec_history c db) id l Hl)
    as (l1 & Hl1 & Hu1 & Hb1 & Ht1 & Hs1).
  destruct (IH _ _ Hl1) as (l' & Hl' & Hu & Hb & Ht & Hs).
  exists l'. repeat split; [done|congruence..|auto].
Qed.

Lemma loans_are_kept_witness :
  borrowedBooks db_returned !! 1
    = Some (mkBorrowedBook "alice" 1 (Some 1000) 5000 (Some 2000)
                           "returned") /\
  exists l',
    borrowedBooks
      (exec_all [PostRenew 1 9000; PostReturn 3000 1; DeleteBook "root" 1;
                 PostBorrow 4000 "alice" 1 8000] db_returned) !! 1
      = Some l' /\
    userId l' = "alice" /\ bookId l' = 1 /\ borrowedAt l' = Some 1000 /\
    ("returned" = "returned" -> status l' = "returned").
Proof.
  split; [reflexivity|].
  exact (loans_are_kept
           [PostRenew 1 9000; PostReturn 3000 1; DeleteBook "root" 1;
            PostBorrow 4000 "alice" 1 8000]
           db_returned 1
           (mkBorrowedBook "alice" 1 (Some 1000) 5000 (Some 2000) "returned")
           eq_refl).
Defined.

(** Purchases are immutable and users are never removed: whatever is
    written afterwards, a purchase is still there unchanged and a
    registered user is still registered. *)
Theorem purchases_and_users_are_kept (cs : list Command) (db : Db) :
  (forall id p, purchases db !! id = Some p ->
     purchases (exec_all cs db) !! id = Some p) /\
  (forall uid, is_Some (users db !! uid) ->
     is_Some (users (exec_all cs db) !! uid)).
Proof.
  revert db. induction cs as [|c cs IH]; intros db; [done|].
  rewrite exec_all_cons.
  destruct (exec_history c db) as (_ & Hp1 & Hu1).
  destruct (IH (exec c db)) as (Hp & Hu). split; eauto.
Qed.

Lemma purchases_and_users_are_kept_witness :
  purchases db_stats !! 1 = Some (mkPurchase "alice" 1 999 (Some today)) /\
  purchases
    (exec_all [PostPurchase (today + 5) "alice" 1 1;
               PutBook (today + 6) "root" 1
                 (mkBookPatch None None None None None None (Some 5) None
                              None None);
               DeleteBook "root" 1] db_stats) !! 1
    = Some (mkPurchase "alice" 1 999 (Some today)).
Proof.
  split; [reflexivity|].
  exact (proj1 (purchases_and_users_are_kept _ db_stats) 1
               (mkPurchase "alice" 1 999 (Some today)) eq_refl).
Defined.

(** ** Listing books, loans and purchases *)

Lemma desc_nulls_first_total (x y : option Z) :
  desc_nulls_first x y \/ desc_nulls_first y x.
Proof. destruct x, y; simpl; try tauto. lia. Qed.

Lemma desc_nulls_first_trans (x y z : option Z) :
  desc_nulls_first x y -> desc_nulls_first y z -> desc_nulls_first x z.
Proof. destruct x, y, z; simpl; try tauto. lia. Qed.

#[local] Instance by_createdAt_desc_total : Total by_createdAt_desc.
Proof. intros x y. apply desc_nulls_first_total. Qed.

#[local] Instance by_createdAt_desc_trans : Transitive by_createdAt_desc.
Proof. intros x y z. apply desc_nulls_first_trans. Qed.

#[local] Instance by_borrowedAt_desc_total : Total by_borrowedAt_desc.
Proof. intros x y. apply desc_nulls_first_total. Qed.

#[local] Instance by_borrowedAt_desc_trans : Transitive by_borrowedAt_desc.
Proof. intros x y z. apply desc_nulls_first_trans. Qed.

#[local] Instance by_purchasedAt_desc_total : Total by_purchasedAt_desc.
Proof. intros x y. apply desc_nulls_first_total. Qed.

#[local] Instance by_purchasedAt_desc_trans : Transitive by_purchasedAt_desc.
Proof. intros x y z. apply desc_nulls_first_trans. Qed.

Lemma elem_of_merge_sort {A} (R : relation A) `{forall x y, Decision (R x y)}
    (x : A) (l : list A) :
  x ∈ merge_sort R l <-> x ∈ l.
Proof. by rewrite merge_sort_Permutation. Qed.

(** [getAllBooks] lists every book of the table exactly once, newest
    first (books without a creation time first). *)
Theorem getAllBooks_lists_every_book (db : Db) :
  exists rows,
    getAllBooks db = (db, Fulfilled rows) /\
    rows ≡ₚ map_to_list (books db) /\
    (forall id b, (id, b) ∈ rows <-> books db !! id = Some b) /\
    length rows = size (books db) /\
    StronglySorted by_createdAt_desc rows.
Proof.
  eexists. split; [reflexivity|]. split; [apply merge_sort_Permutation|].
  split; [|split].
  - intros id b. by rewrite elem_of_merge_sort, elem_of_map_to_list.
  - by rewrite merge_sort_Permutation, length_map_to_list.
  - apply StronglySorted_merge_sort; apply _.
Qed.

(** [filterBooks] without a category, or with the empty string, is
    [getAllBooks]; with a category it lists exactly the books whose
    category is that very string. *)
Theorem filterBooks_by_category (cat : option string) (db : Db) :
  (cat = None \/ cat = Some "" -> filterBooks cat db = getAllBooks db) /\
  (forall c, cat = Some c -> c <> "" ->
     exists rows,
       filterBooks cat db = (db, Fulfilled rows) /\
       (forall id b, (id, b) ∈ rows <->
                     books db !! id = Some b /\ category b = c)).
Proof.
  split.
  - by intros [-> | ->].
  - intros c -> Hc. unfold filterBooks.
    rewrite bool_decide_eq_false_2 by done.
    eexists. split; [reflexivity|]. intros id b.
    rewrite list_elem_of_filter, elem_of_map_to_list. simpl. tauto.
Qed.

Lemma filterBooks_by_category_witness :
  (Some "Fiction" = Some "Fiction" /\ "Fiction" <> "") /\
  exists rows,
    filterBooks (Some "Fiction") db_stats = (db_stats, Fulfilled rows) /\
    (forall id b, (id, b) ∈ rows <->
                  books db_stats !! id = Some b /\ category b = "Fiction").
Proof.
  assert ("Fiction" <> "") as Hne by discriminate.
  split; [split; [reflexivity | exact Hne]|].
  exact (proj2 (filterBooks_by_category (Some "Fiction") db_stats)
               "Fiction" eq_refl Hne).
Defined.

Lemma elem_of_join_loans (bs : gmap Z Book)
    (loans : list (Z * BorrowedBook)) (id : Z) (l : BorrowedBook) (b : Book) :
  (id, l, b) ∈ omap (join_loan bs) loans <->
  (id, l) ∈ loans /\ bs !! bookId l = Some b.
Proof.
  rewrite list_elem_of_omap. unfold join_loan. split.
  - intros ([id' l'] & Hin & Hjoin). simpl in Hjoin.
    destruct (bs !! bookId l') as [b'|] eqn:Hb; simplify_eq. done.
  - intros [Hin Hb]. exists (id, l). simpl. by rewrite Hb.
Qed.

Lemma elem_of_join_purchases (bs : gmap Z Book)
    (ps : list (Z * Purchase)) (id : Z) (p : Purchase) (b : Book) :
  (id, p, b) ∈ omap (join_purchase bs) ps <->
  (id, p) ∈ ps /\ bs !! purchase_bookId p = Some b.
Proof.
  rewrite list_elem_of_omap. unfold join_purchase. split.
  - intros ([id' p'] & Hin & Hjoin). simpl in Hjoin.
    destruct (bs !! purchase_bookId p') as [b'|] eqn:Hb; simplify_eq. done.
  - intros [Hin Hb]. exists (id, p). simpl. by rewrite Hb.
Qed.

(** [getUserBorrowedBooks] lists exactly the loans of that user whose
    status is 'borrowed' and whose book exists, each with its book,
    latest borrowing first. *)
Theorem getUserBorrowedBooks_lists_open_loans (uid : string) (db : Db) :
  exists rows,
    getUserBorrowedBooks uid db = (db, Fulfilled rows) /\
    (forall id l b,
       (id, l, b) ∈ rows <->
       borrowedBooks db !! id = Some l /\ userId l = uid /\
       status l = "borrowed" /\ books db !! bookId l = Some b) /\
    StronglySorted by_borrowedAt_desc rows.
Proof.
  eexists. split; [reflexivity|]. split.
  - intros id l b.
    rewrite elem_of_merge_sort, elem_of_join_loans, list_elem_of_filter,
      elem_of_map_to_list. simpl. tauto.
  - apply StronglySorted_merge_sort; apply _.
Qed.

(** [getUserPurchases], and with it [GET /api/purchases], lists exactly
    the purchases of that user whose book exists, each with its book,
    latest purchase first. *)
Theorem getUserPurchases_lists_purchases (uid : string) (db : Db) :
  exists rows,
    getUserPurchases uid db = (db, Fulfilled rows) /\
    get_api_purchases uid db = (db, ReplyJson rows) /\
    (forall id p b,
       (id, p, b) ∈ rows <->
       purchases db !! id = Some p /\ purchase_userId p = uid /\
       books db !! purchase_bookId p = Some b) /\
    StronglySorted by_purchasedAt_desc rows.
Proof.
  eexists. split; [reflexivity|]. split; [reflexivity|]. split.
  - intros id p b.
    rewrite elem_of_merge_sort, elem_of_join_purchases, list_elem_of_filter,
      elem_of_map_to_list. simpl. tauto.
  - apply StronglySorted_merge_sort; apply _.
Qed.

(** ** Returning, seen through the user's list *)

Lemma post_api_return_loans (now borrowId : Z) (db : Db) :
  borrowedBooks (fst (post_api_return now borrowId db))
    = alter (set_returned now) borrowId (borrowedBooks db).
Proof.
  unfold_exec; simpl; split_cases; try done.
  by rewrite alter_absent.
Qed.

(** After a return request for a loan id, that loan is in no user's
    list of borrowed books, whether the request was answered 200 or
    500 and whether or not the id existed. *)
Theorem returned_loan_leaves_list
    (now borrowId : Z) (uid : string) (db : Db) :
  exists rows,
    get_api_borrowed uid (fst (post_api_return now borrowId db))
      = (fst (post_api_return now borrowId db), ReplyJson rows) /\
    forall l b, (borrowId, l, b) ∉ rows.
Proof.
  destruct (getUserBorrowedBooks_lists_open_loans uid
              (fst (post_api_return now borrowId db)))
    as (rows & Heq & Hin & _).
  exists rows. split.
  - unfold get_api_borrowed, try_catch_reply, await, resolve. by rewrite Heq.
  - intros l b (Hl & _ & Hstatus & _)%Hin.
    rewrite post_api_return_loans, lookup_alter, decide_True in Hl by done.
    destruct (borrowedBooks db !! borrowId); simpl in *; by simplify_eq.
Qed.

(** ** What an answer tells about the database *)

(** A book or a purchase that a handler answers with is stored under
    the key it is answered with: the book can be fetched by that id,
    and the purchase is the caller's, for the requested book and at the
    price of the request. *)
Theorem answered_rows_are_stored (db : Db) :
  (forall now uid bookData id b,
     snd (post_api_books now uid bookData db) = res_json (BookJson (id, b)) ->
     get_api_books_id id (fst (post_api_books now uid bookData db))
       = (fst (post_api_books now uid bookData db), ReplyJson (id, b))) /\
  (forall now uid bid p id row,
     snd (post_api_purchase now uid bid p db)
       = res_json (PurchaseJson (id, row)) ->
     purchases (fst (post_api_purchase now uid bid p db)) !! id = Some row /\
     row = mkPurchase uid bid p (Some now)).
Proof.
  split.
  - intros now uid bookData id b.
    unfold get_api_books_id, try_catch_reply.
    unfold_exec; simpl; split_cases; intros Hres; simplify_eq.
    all: unfold_with; rewrite lookup_insert_eq in *; by simplify_eq.
  - intros now uid bid p id row.
    unfold_exec; simpl; split_cases; intros Hres; simplify_eq.
    all: unfold_with; by rewrite lookup_insert_eq.
Qed.

Lemma answered_rows_are_stored_witness :
  snd (post_api_purchase 3000 "alice" 1 999 db_one_copy)
    = res_json (PurchaseJson (1, mkPurchase "alice" 1 999 (Some 3000))) /\
  purchases (fst (post_api_purchase 3000 "alice" 1 999 db_one_copy)) !! 1
    = Some (mkPurchase "alice" 1 999 (Some 3000)).
Proof.
  split; [reflexivity|].
  destruct (answered_rows_are_stored db_one_copy) as (_ & Hpurchase).
  exact (proj1 (Hpurchase 3000 "alice" 1 999 1
                  (mkPurchase "alice" 1 999 (Some 3000)) eq_refl)).
Defined.

(** A borrow request that is not answered 200 creates no loan. *)
Theorem refused_borrow_creates_no_loan
    (now : Z) (uid : string) (bid due : Z) (db : Db) :
  statusCode (snd (post_api_borrow now uid bid due db)) <> 200 ->
  borrowedBooks (fst (post_api_borrow now uid bid due db)) = borrowedBooks db.
Proof.
  unfold_exec; simpl; split_cases; intros Hcode; simpl in *; done.
Qed.

Lemma refused_borrow_creates_no_loan_witness :
  statusCode (snd (post_api_borrow 1000 "alice" 1 5000 db_none_left)) <> 200 /\
  borrowedBooks (fst (post_api_borrow 1000 "alice" 1 5000 db_none_left))
    = borrowedBooks db_none_left.
Proof.
  assert (statusCode (snd (post_api_borrow 1000 "alice" 1 5000 db_none_left))
          <> 200) as Hcode by (vm_compute; discriminate).
  split; [exact Hcode|].
  exact (refused_borrow_creates_no_loan 1000 "alice" 1 5000 db_none_left
           Hcode).
Defined.

(** No handler writes to [users]: a role changes through [upsertUser]
    only. *)
Theorem handlers_never_write_users (c : Command) (db : Db) :
  (forall userData, c <> Login userData) ->
  users (exec c db) = users db.
Proof.
  intros Hc. destruct c; [by destruct (Hc userData)|..];
    unfold_exec; simpl; split_cases; done.
Qed.

Lemma handlers_never_write_users_witness :
  (forall userData, DeleteBook "root" 1 <> Login userData) /\
  users (exec (DeleteBook "root" 1) db_one_copy) = users db_one_copy.
Proof.
  assert (forall userData, DeleteBook "root" 1 <> Login userData) as Hc
    by (intros userData; discriminate).
  split; [exact Hc|].
  exact (handlers_never_write_users (DeleteBook "root" 1) db_one_copy Hc).
Defined.

(** ** Overdue loans *)

(** [getOverdueBooks] lists every loan in status 'borrowed' whose book
    exists, each with its book, whatever its due date and whatever the
    time: a loan due in the future is listed as well. *)
Theorem getOverdueBooks_ignores_dueDate (now : Z) (db : Db) :
  exists rows,
    getOverdueBooks now db = (db, Fulfilled rows) /\
    (forall id l b,
       (id, l, b) ∈ rows <->
       borrowedBooks db !! id = Some l /\ status l = "borrowed" /\
       books db !! bookId l = Some b) /\
    (forall now', getOverdueBooks now' db = (db, Fulfilled rows)).
Proof.
  eexists. split; [reflexivity|]. split; [|done].
  intros id l b.
  rewrite elem_of_join_loans, list_elem_of_filter, elem_of_map_to_list.
  simpl. tauto.
Qed.

(** ** The dashboard badge in terms of the two instants *)

(** A loan is shown "Overdue" only from a full day after its due
    instant on; during the first day after it, it still reads "Due
    Soon", as it does up to three days before; "On Time" means more
    than three days ahead. *)
Theorem getStatus_by_instants (due now : Z) :
  (text (getStatus due now) = "Overdue" <-> due <= now - ms_per_day) /\
  (text (getStatus due now) = "Due Soon" <->
     now - ms_per_day < due <= now + 3 * ms_per_day) /\
  (text (getStatus due now) = "On Time" <-> now + 3 * ms_per_day < due).
Proof.
  pose proof ms_per_day_pos as Hpos.
  destruct (proj1 (ceil_div_spec (due - now) ms_per_day (diffDays due now)
                     Hpos) eq_refl) as [Hlo Hhi].
  unfold getStatus.
  destruct (Z.ltb_spec (diffDays due now) 0);
    [|destruct (Z.leb_spec (diffDays due now) 3)]; simpl;
    repeat split; intros; first [done | nia].
Qed.

(** ** The book card and the borrow handler *)

(** The card disables borrowing exactly when [availableCopies] is 0,
    which is exactly when the borrow handler answers 400 for that book;
    a negative count leaves the button enabled and is shown as a
    number of available copies. *)
Theorem canBorrow_matches_borrow_handler
    (now : Z) (uid : string) (bid due : Z) (db : Db) (b : Book) :
  books db !! bid = Some b ->
  (canBorrow (getAvailabilityStatus b) = false <-> availableCopies b = 0) /\
  (canBorrow (getAvailabilityStatus b) = false <->
   post_api_borrow now uid bid due db
     = (db, res_status 400 "Book not available for borrowing")) /\
  (availableCopies b < 0 ->
   getAvailabilityStatus b
     = mkAvailability (pretty (availableCopies b) +:+ " Available")
                      "bg-library-warning text-white" true).
Proof.
  intros Hb.
  assert (canBorrow (getAvailabilityStatus b) = false
          <-> availableCopies b = 0) as Hcan.
  { unfold getAvailabilityStatus.
    destruct (Z.eqb_spec (availableCopies b) 0);
      [|destruct (availableCopies b <=? 2)]; simpl; split; done. }
  split; [exact Hcan|]. split.
  - rewrite Hcan. split.
    + intros Hz. unfold_exec. by rewrite Hb, Hz.
    + unfold_exec. simpl. rewrite Hb.
      destruct (Z.eqb_spec (availableCopies b) 0); [done|].
      split_cases; intros Hres; simplify_eq.
  - intros Hneg. unfold getAvailabilityStatus.
    destruct (Z.eqb_spec (availableCopies b) 0); [lia|].
    destruct (Z.leb_spec (availableCopies b) 2); [done|lia].
Qed.

Lemma canBorrow_matches_borrow_handler_witness :
  books db_none_left !! 1 = Some (sample_book 1 0) /\
  (canBorrow (getAvailabilityStatus (sample_book 1 0)) = false <->
   post_api_borrow 1000 "alice" 1 5000 db_none_left
     = (db_none_left, res_status 400 "Book not available for borrowing")).
Proof.
  split; [reflexivity|].
  destruct (canBorrow_matches_borrow_handler 1000 "alice" 1 5000 db_none_left
              (sample_book 1 0) eq_refl) as (_ & Hiff & _).
  exact Hiff.
Defined.

(** ** Registering a user *)

Lemma email_taken_spec (e : string) (us : gmap string User) :
  email_taken (Some e) us = true <->
  exists j u, us !! j = Some u /\ email u = Some e.
Proof.
  unfold email_taken. rewrite bool_decide_eq_true, Exists_exists. split.
  - intros ([j u] & Hin & He). exists j, u.
    by apply elem_of_map_to_list in Hin.
  - intros (j & u & Hu & He). exists (j, u).
    by rewrite elem_of_map_to_list.
Qed.

(** [upsertUser] followed by [getUser] gives back the stored row. A new
    user gets the role sent or else "user"; an existing user keeps the
    role they have unless one is sent, so an admin stays an admin
    through a login that carries no role. No other user and no other
    table changes. When the e-mail sent belongs to another user the
    call is rejected and nothing is written. *)
Theorem upsertUser_keeps_unsent_role (userData : UpsertUser) (db : Db) :
  ((forall e j u, default None (up_email userData) = Some e ->
                  j <> up_id userData -> users db !! j = Some u ->
                  email u <> Some e) ->
   exists row,
     snd (upsertUser userData db) = Fulfilled row /\
     getUser (up_id userData) (fst (upsertUser userData db))
       = (fst (upsertUser userData db), Fulfilled (Some row)) /\
     role row
       = default (from_option role "user" (users db !! up_id userData))
                 (up_role userData) /\
     (forall j, j <> up_id userData ->
        users (fst (upsertUser userData db)) !! j = users db !! j) /\
     books (fst (upsertUser userData db)) = books db /\
     borrowedBooks (fst (upsertUser userData db)) = borrowedBooks db /\
     purchases (fst (upsertUser userData db)) = purchases db) /\
  (forall e j u, default None (up_email userData) = Some e ->
                 j <> up_id userData -> users db !! j = Some u ->
                 email u = Some e ->
     upsertUser userData db = (db, Rejected UniqueViolation)).
Proof.
  split.
  - intros Hfree.
    assert (email_taken (default None (up_email userData))
                        (delete (up_id userData) (users db)) = false) as Hno.
    { destruct (default None (up_email userData)) as [e|] eqn:He; [|done].
      apply not_true_is_false.
      intros (j & u & [Hj Hu]%lookup_delete_Some & Hmail)%email_taken_spec.
      by eapply Hfree. }
    unfold upsertUser, getUser. rewrite Hno. simpl.
    eexists. split; [reflexivity|]. rewrite lookup_insert_eq.
    split; [reflexivity|]. split.
    + by destruct (users db !! up_id userData), (up_role userData).
    + split; [|done]. intros j Hj. by rewrite lookup_insert_ne.
  - intros e j u He Hj Hu Hmail.
    assert (email_taken (default None (up_email userData))
                        (delete (up_id userData) (users db)) = true) as Hyes.
    { rewrite He. apply email_taken_spec. exists j, u.
      by rewrite lookup_delete_ne. }
    unfold upsertUser. by rewrite Hyes.
Qed.

Lemma upsertUser_keeps_unsent_role_witness :
  (forall e j u,
     default None (up_email (mkUpsertUser "root" None None)) = Some e ->
     j <> up_id (mkUpsertUser "root" None None) ->
     users db_one_copy !! j = Some u -> email u <> Some e) /\
  exists row,
    snd (upsertUser (mkUpsertUser "root" None None) db_one_copy)
      = Fulfilled row /\
    role row = "admin".
Proof.
  assert (forall e j u,
            default None (up_email (mkUpsertUser "root" None None)) = Some e ->
            j <> up_id (mkUpsertUser "root" None None) ->
            users db_one_copy !! j = Some u -> email u <> Some e) as Hfree
    by (intros e j u He; simpl in He; discriminate).
  split; [exact Hfree|].
  destruct (proj1 (upsertUser_keeps_unsent_role
                     (mkUpsertUser "root" None None) db_one_copy) Hfree)
    as (row & Hres & _ & Hrole & _).
  exists row. split; [exact Hres | exact Hrole].
Defined.
